(** * cf_dns_manager: an interactive Cloudflare DNS record manager

    A shallow embedding of [cf_dns_manager.py].  The program is a console
    loop around five HTTP calls, so the embedding is a small monad that
    threads the console input still to be read and the replies the network
    will give, raises Python exceptions, and logs every console output and
    every HTTP request in the order the program performs them.

    Modelling scope.
    - Text is a [string] of bytes; [repr] is the ASCII behaviour of the
      Python builtin.  [str.upper] and [int] are written out for ASCII
      text (for [int], up to 640 digits, the lowest limit the interpreter
      can be set to); beyond that they are what the [library] says.
      [str.lower] is written out for ASCII letters; the program only
      compares its result with the word yes and tests it for emptiness, and
      no character outside ASCII has one of y, e, s as its lower case, nor
      is any text emptied by lower-casing,
      so these two uses are those of the builtin on every text.
    - [rich] accepts a text or [None] in a table cell and raises
      [NotRenderableError] on any other object; whether a text is valid
      console markup is what the [library] says, and a table with a text
      that is not raises [MarkupError] when it is printed.
    - JSON numbers are integers (the record fields [ttl] and [priority]
      are), a parsed JSON object is an ordered association list, the first
      binding of a key being the one a lookup sees.
    - [rich] is the text capability the program prints through: a print, a
      prompt or a table is logged with the very text or cells handed to it;
      the markup of messages and prompts is not interpreted.
    - [requests] is the HTTP capability: a call either fails with no
      response or yields a response with a status, a reason, a URL and a
      body that may or may not decode as JSON.
    - The functions take the records as the list of the elements of the
      [result] array; the menu loop of [main] runs on fuel, one round more
      than there are lines to read. *)

From Stdlib Require Import String Ascii List ZArith Bool Lia.
From Stdlib Require Import DecimalString.
Import ListNotations.
Local Open Scope string_scope.
Local Open Scope Z_scope.
#[local] Set Warnings "-register-all".

(** ** Python builtins on text *)

Module Py.

Definition code (c : ascii) : nat := nat_of_ascii c.

(** [str.upper] and [str.lower], one character at a time. *)
Definition upper_char (c : ascii) : ascii :=
  if ((97 <=? code c) && (code c <=? 122))%nat
  then ascii_of_nat (code c - 32) else c.

Definition lower_char (c : ascii) : ascii :=
  if ((65 <=? code c) && (code c <=? 90))%nat
  then ascii_of_nat (code c + 32) else c.

Fixpoint upper (s : string) : string :=
  match s with
  | EmptyString => EmptyString
  | String c r => String (upper_char c) (upper r)
  end.

Fixpoint lower (s : string) : string :=
  match s with
  | EmptyString => EmptyString
  | String c r => String (lower_char c) (lower r)
  end.

(** Truth value of a string: [if s:] holds for every non-empty string. *)
Definition nonempty (s : string) : bool :=
  match s with EmptyString => false | String _ _ => true end.

(** *** [int(s)] for a text argument

    Blanks (space, tab, line feed, vertical tab, form feed, carriage
    return) are skipped at both ends, one sign may precede the digits,
    and single underscores may separate digits.  [None] stands for the
    [ValueError] of an invalid literal. *)
Definition is_space (c : ascii) : bool :=
  ((code c =? 32) || ((9 <=? code c) && (code c <=? 13)))%nat.

Definition digit (c : ascii) : option Z :=
  if ((48 <=? code c) && (code c <=? 57))%nat
  then Some (Z.of_nat (code c - 48)) else None.

Fixpoint lstrip (s : string) : string :=
  match s with
  | EmptyString => EmptyString
  | String c r => if is_space c then lstrip r else s
  end.

Fixpoint all_space (s : string) : bool :=
  match s with
  | EmptyString => true
  | String c r => is_space c && all_space r
  end.

(** The digits after the first one: [acc] is the value read so far and
    [sep] tells that the previous character was an underscore. *)
Fixpoint int_digits (acc : Z) (sep : bool) (s : string) : option Z :=
  match s with
  | EmptyString => if sep then None else Some acc
  | String c r =>
      match digit c with
      | Some d => int_digits (10 * acc + d) false r
      | None =>
          if sep then None
          else if Ascii.eqb c "_" then int_digits acc true r
          else if all_space s then Some acc else None
      end
  end.

Definition int_unsigned (s : string) : option Z :=
  match s with
  | EmptyString => None
  | String c r =>
      match digit c with
      | Some d => int_digits d false r
      | None => None
      end
  end.

Definition int (s : string) : option Z :=
  match lstrip s with
  | String "+" r => int_unsigned r
  | String "-" r => option_map Z.opp (int_unsigned r)
  | t => int_unsigned t
  end.

(** Text whose characters are all ASCII. *)
Fixpoint is_ascii (s : string) : bool :=
  match s with
  | EmptyString => true
  | String c r => (code c <? 128)%nat && is_ascii r
  end.

(** The number of digit characters of a text. *)
Fixpoint digit_count (s : string) : nat :=
  match s with
  | EmptyString => O
  | String c r =>
      match digit c with
      | Some _ => S (digit_count r)
      | None => digit_count r
      end
  end.

(** [str(n)] for an integer. *)
Definition str_int (n : Z) : string := NilZero.string_of_int (Z.to_int n).

(** *** [repr(s)] for a string

    Single quotes unless the text holds a single quote and no double
    quote; the quote in use and the backslash are escaped, tab, line feed
    and carriage return have their letter, every other character outside
    the printable ASCII range is written in hexadecimal. *)
Fixpoint has_char (q : ascii) (s : string) : bool :=
  match s with
  | EmptyString => false
  | String c r => Ascii.eqb c q || has_char q r
  end.

Definition backslash : ascii := ascii_of_nat 92.
Definition squote : ascii := ascii_of_nat 39.
Definition dquote : ascii := ascii_of_nat 34.

Definition escape (c : ascii) : string :=
  String backslash (String c EmptyString).

Definition hex_digit (n : nat) : ascii :=
  if (n <? 10)%nat then ascii_of_nat (48 + n) else ascii_of_nat (87 + n).

Definition repr_char (q c : ascii) : string :=
  if Ascii.eqb c q || Ascii.eqb c backslash then escape c
  else if (code c =? 9)%nat then escape "t"
  else if (code c =? 10)%nat then escape "n"
  else if (code c =? 13)%nat then escape "r"
  else if ((code c <? 32) || (126 <? code c))%nat
       then String backslash
              (String "x" (String (hex_digit (code c / 16))
                 (String (hex_digit (code c mod 16)) EmptyString)))
  else String c EmptyString.

Fixpoint repr_chars (q : ascii) (s : string) : string :=
  match s with
  | EmptyString => EmptyString
  | String c r => repr_char q c ++ repr_chars q r
  end.

Definition repr_str (s : string) : string :=
  let q := if has_char squote s && negb (has_char dquote s)
           then dquote else squote in
  String q (repr_chars q s ++ String q EmptyString).

(** [", ".join(l)] *)
Fixpoint join (l : list string) : string :=
  match l with
  | [] => EmptyString
  | [x] => x
  | x :: r => x ++ ", " ++ join r
  end.

End Py.

(** ** JSON values, as [response.json()] yields them *)

Inductive json : Type :=
| JNull
| JBool (b : bool)
| JNum (n : Z)
| JStr (s : string)
| JArr (l : list json)
| JObj (d : list (string * json)).

(** A Python [dict] with text keys: insertion-ordered bindings. *)
Definition dict : Type := list (string * json).

Fixpoint dict_get (k : string) (d : dict) : option json :=
  match d with
  | [] => None
  | (k', v) :: r => if String.eqb k' k then Some v else dict_get k r
  end.

(** [d[k] = v]: replaces the binding in place, or appends a new one. *)
Fixpoint dict_set (k : string) (v : json) (d : dict) : dict :=
  match d with
  | [] => [(k, v)]
  | (k', v') :: r =>
      if String.eqb k' k then (k', v) :: r else (k', v') :: dict_set k v r
  end.

Definition dict_keys (d : dict) : list string := map fst d.

Definition dict_has (k : string) (d : dict) : bool :=
  match dict_get k d with Some _ => true | None => false end.

(** Truth value of an object ([if v:], [not v], [a or b]). *)
Definition truthy (v : json) : bool :=
  match v with
  | JNull => false
  | JBool b => b
  | JNum n => negb (n =? 0)
  | JStr s => Py.nonempty s
  | JArr l => match l with [] => false | _ => true end
  | JObj d => match d with [] => false | _ => true end
  end.

(** [v == s] for a text literal [s]. *)
Definition eq_str (v : json) (s : string) : bool :=
  match v with
  | JStr t => String.eqb t s
  | _ => false
  end.

Fixpoint py_repr (v : json) : string :=
  match v with
  | JNull => "None"
  | JBool true => "True"
  | JBool false => "False"
  | JNum n => Py.str_int n
  | JStr s => Py.repr_str s
  | JArr l => "[" ++ Py.join (map py_repr l) ++ "]"
  | JObj d =>
      "{" ++ Py.join (map (fun kv => match kv with
                                      | (k, x) => Py.repr_str k ++ ": " ++ py_repr x
                                      end) d) ++ "}"
  end.

(** [str(v)], which is also what an f-string field [{v}] expands to. *)
Definition py_str (v : json) : string :=
  match v with
  | JStr s => s
  | _ => py_repr v
  end.

(** ** The outside world: console and network *)

(** A [requests] response: the status, the reason phrase, the final URL,
    and the body, either decoded ([inr]) or refused by the JSON decoder
    with the decoder's message ([inl]). *)
Record response : Type := {
  status_code : Z;
  reason : string;
  resp_url : string;
  body : string + json
}.

(** What the network answers to one call: nothing (connection refused,
    time out, ...: [requests] raises with the given text), or a response. *)
Inductive reply : Type :=
| NoResponse (msg : string)
| Reply (r : response).

(** A [requests.exceptions.RequestException]: [str(e)] and [e.response]. *)
Record request_exception : Type := {
  message : string;
  exc_response : option response
}.

Inductive exn : Type :=
| KeyError (k : json)
| IndexError
| TypeError
| AttributeError
| ValueError
| EOFError
| NotRenderableError
| MarkupError
| SystemExit (code : Z)
| RequestException (e : request_exception).

Inductive outcome (A : Type) : Type :=
| Return (a : A)
| Raise (e : exn).
Arguments Return {A} a.
Arguments Raise {A} e.

Definition obind {A B : Type} (o : outcome A) (k : A -> outcome B) : outcome B :=
  match o with
  | Return a => k a
  | Raise e => Raise e
  end.

Notation "'let?' x ':=' o 'in' k" := (obind o (fun x => k))
  (at level 10, x name, o at level 100, k at level 200).

Inductive http_method : Type := GET | POST | PUT | DELETE.

(** A table cell: an object handed to [rich] as it is, or a text. *)
Inductive cell : Type :=
| Cell (v : json)
| Text (s : string).

Inductive event : Type :=
| Printed (s : string)
| Prompt (s : string)
| Table (title : string) (columns : list string) (rows : list (list cell))
| Request (m : http_method) (url : string)
          (headers : list (string * option string)) (data : option dict).

(** The console lines still to be read, the reply the network gives to the
    n-th call, and the number of calls made so far. *)
Record world : Type := {
  stdin : list string;
  net : nat -> reply;
  sent : nat
}.

(** A computation returns or raises, leaves a world, and logs its events. *)
Definition M (A : Type) : Type := world -> outcome A * world * list event.

Definition result {A : Type} (x : outcome A * world * list event) : outcome A :=
  fst (fst x).
Definition final {A : Type} (x : outcome A * world * list event) : world :=
  snd (fst x).
Definition events {A : Type} (x : outcome A * world * list event) : list event :=
  snd x.

Definition ret {A : Type} (a : A) : M A := fun w => (Return a, w, []).

Definition raise {A : Type} (e : exn) : M A := fun w => (Raise e, w, []).

Definition bind {A B : Type} (m : M A) (k : A -> M B) : M B :=
  fun w =>
    match m w with
    | (Return a, w1, l1) =>
        match k a w1 with
        | (o, w2, l2) => (o, w2, (l1 ++ l2)%list)
        end
    | (Raise e, w1, l1) => (Raise e, w1, l1)
    end.

Notation "x <- m ;; k" := (bind m (fun x => k))
  (at level 61, m at next level, right associativity).
Notation "m ;; k" := (bind m (fun _ => k))
  (at level 61, right associativity).

Definition lift {A : Type} (o : outcome A) : M A := fun w => (o, w, []).

(** [try: m  except requests.exceptions.RequestException as e: h e] *)
Definition try_except {A : Type} (m : M A) (h : request_exception -> M A) : M A :=
  fun w =>
    match m w with
    | (Raise (RequestException e), w1, l1) =>
        match h e w1 with
        | (o, w2, l2) => (o, w2, (l1 ++ l2)%list)
        end
    | r => r
    end.

(** [console.print(s)] *)
Definition console_print (s : string) : M unit :=
  fun w => (Return tt, w, [Printed s]).

(** [console.input(prompt)]: shows the prompt and reads one line; at the end
    of the input [input()] raises [EOFError]. *)
Definition console_input (prompt : string) : M string :=
  fun w =>
    match stdin w with
    | [] => (Raise EOFError, w, [Prompt prompt])
    | line :: rest =>
        (Return line, {| stdin := rest; net := net w; sent := sent w |},
         [Prompt prompt])
    end.

(** [sys.exit(code)] *)
Definition sys_exit {A : Type} (code : Z) : M A := raise (SystemExit code).

(** *** Subscripts and attribute calls on JSON values *)

(** [v[k]] for a text key. *)
Definition subscript (v : json) (k : string) : outcome json :=
  match v with
  | JObj d =>
      match dict_get k d with
      | Some x => Return x
      | None => Raise (KeyError (JStr k))
      end
  | _ => Raise TypeError
  end.

(** [v[0]] *)
Definition first_item (v : json) : outcome json :=
  match v with
  | JArr (x :: _) => Return x
  | JArr [] => Raise IndexError
  | JStr (String c _) => Return (JStr (String c EmptyString))
  | JStr EmptyString => Raise IndexError
  | JObj _ => Raise (KeyError (JNum 0))
  | _ => Raise TypeError
  end.

(** [v.get(k, default)] *)
Definition py_get (v : json) (k : string) (default : json) : outcome json :=
  match v with
  | JObj d =>
      match dict_get k d with
      | Some x => Return x
      | None => Return default
      end
  | _ => Raise AttributeError
  end.

Definition getitem (v : json) (k : string) : M json := lift (subscript v k).

(** *** [requests] *)

(** The text of the [HTTPError] that [raise_for_status] builds. *)
Definition http_error_msg (r : response) : string :=
  Py.str_int (status_code r) ++
  (if status_code r <? 500 then " Client Error: " else " Server Error: ") ++
  reason r ++ " for url: " ++ resp_url r.

(** [response.raise_for_status()] *)
Definition raise_for_status (r : response) : M unit :=
  if (400 <=? status_code r) && (status_code r <? 600)
  then raise (RequestException
                {| message := http_error_msg r; exc_response := Some r |})
  else ret tt.

(** [response.json()]: a body that does not decode raises
    [requests.exceptions.JSONDecodeError], a [RequestException] that
    carries no response. *)
Definition response_json (r : response) : M json :=
  match body r with
  | inr v => ret v
  | inl msg => raise (RequestException
                        {| message := msg; exc_response := None |})
  end.

(** [e.response.json()] inside a handler. *)
Definition exc_response_json (e : request_exception) : M json :=
  match exc_response e with
  | None => raise AttributeError
  | Some r => response_json r
  end.

(** ** The program *)

(** The three settings read from the environment; [os.getenv] yields
    [None] for a variable that is not set. *)
Record config : Type := {
  CF_EMAIL : option string;
  CF_API_KEY : option string;
  CF_DOMAIN : option string
}.

Definition nl : string := String (ascii_of_nat 10) EmptyString.

(** An f-string field holding the result of [os.getenv]. *)
Definition str_opt (o : option string) : string :=
  match o with
  | Some s => s
  | None => "None"
  end.

Definition API_BASE_URL : string := "https://api.cloudflare.com/client/v4".

(** What is taken from the libraries as it is: [str.upper] on text that is
    not ASCII, [int] on text that is not ASCII or has more than 640 digits,
    and whether [rich] accepts a text as console markup. *)
Record library : Type := {
  upper_beyond : string -> string;
  int_beyond : string -> option Z;
  markup_ok : string -> bool
}.

Section Program.

Variable cfg : config.
Variable lib : library.

(** [s.upper()] *)
Definition str_upper (s : string) : string :=
  if Py.is_ascii s then Py.upper s else upper_beyond lib s.

(** The value of [int(s)], [None] standing for its [ValueError]. *)
Definition int_of (s : string) : option Z :=
  if Py.is_ascii s && (Py.digit_count s <=? 640)%nat
  then Py.int s else int_beyond lib s.

(** [int(s)] *)
Definition to_int (s : string) : M Z :=
  match int_of s with
  | Some n => ret n
  | None => raise ValueError
  end.

Definition HEADERS : list (string * option string) :=
  [ ("X-Auth-Email", CF_EMAIL cfg);
    ("X-Auth-Key", CF_API_KEY cfg);
    ("Content-Type", Some "application/json") ].

(** [requests.get/post/put/delete(url, headers=HEADERS, json=data)]: the
    call is logged, counted, and answered by the network. *)
Definition requests_call (m : http_method) (url : string) (data : option dict)
  : M response :=
  fun w =>
    let w' := {| stdin := stdin w; net := net w; sent := S (sent w) |} in
    match net w (sent w) with
    | NoResponse msg =>
        (Raise (RequestException {| message := msg; exc_response := None |}),
         w', [Request m url HEADERS data])
    | Reply r => (Return r, w', [Request m url HEADERS data])
    end.

Definition get_zone_id (domain : string) : M json :=
  let url := API_BASE_URL ++ "/zones?name=" ++ domain in
  try_except
    (response <- requests_call GET url None ;;
     raise_for_status response ;;
     data <- response_json response ;;
     found <- getitem data "result" ;;
     if truthy found then
       first <- lift (first_item found) ;;
       getitem first "id"
     else
       console_print ("[bold red]Error: Domain '" ++ domain ++
                      "' not found in your Cloudflare account.[/bold red]") ;;
       sys_exit 1)
    (fun e =>
       console_print ("[bold red]API Request Error: " ++ message e ++
                      "[/bold red]") ;;
       sys_exit 1).

Definition get_dns_records (zone_id : json) : M json :=
  let url := API_BASE_URL ++ "/zones/" ++ py_str zone_id ++ "/dns_records" in
  try_except
    (response <- requests_call GET url None ;;
     raise_for_status response ;;
     data <- response_json response ;;
     getitem data "result")
    (fun e =>
       console_print ("[bold red]API Request Error: " ++ message e ++
                      "[/bold red]") ;;
       ret (JArr [])).

Definition columns : list string :=
  ["ID"; "Type"; "Name"; "Content"; "TTL"; "Priority"; "Proxy"].

(** The arguments of one [table.add_row] call, evaluated left to right. *)
Definition row_of (record : json) : outcome (list cell) :=
  let? id := subscript record "id" in
  let? type := subscript record "type" in
  let? name := subscript record "name" in
  let? content := subscript record "content" in
  let? ttl := subscript record "ttl" in
  let? priority := py_get record "priority" (JStr "N/A") in
  let? proxied := subscript record "proxied" in
  Return [ Cell id; Cell type; Cell name; Cell content;
           Text (py_str ttl); Text (py_str priority);
           Text (if truthy proxied then "On" else "Off") ].

(** What [rich] takes as a cell: a text or [None]. *)
Definition cell_renderable (c : cell) : bool :=
  match c with
  | Cell (JStr _) => true
  | Cell JNull => true
  | Cell _ => false
  | Text _ => true
  end.

(** [table.add_row(...)] on the evaluated arguments. *)
Definition add_row (row : list cell) : outcome (list cell) :=
  if forallb cell_renderable row then Return row
  else Raise NotRenderableError.

(** The [for record in records] loop that fills the table. *)
Fixpoint rows_of (records : list json) : outcome (list (list cell)) :=
  match records with
  | [] => Return []
  | record :: rest =>
      let? row := row_of record in
      let? row := add_row row in
      let? rows := rows_of rest in
      Return (row :: rows)
  end.

(** The texts of a table that [rich] reads as console markup. *)
Definition cell_texts (c : cell) : list string :=
  match c with
  | Cell (JStr s) => [s]
  | Text s => [s]
  | Cell _ => []
  end.

Definition table_texts (title : string) (rows : list (list cell)) : list string :=
  (title :: columns ++ flat_map (flat_map cell_texts) rows)%list.

Definition table_title : string := "DNS Records for " ++ str_opt (CF_DOMAIN cfg).

Definition display_dns_records (records : list json) : M unit :=
  rows <- lift (rows_of records) ;;
  if forallb (markup_ok lib) (table_texts table_title rows)
  then fun w => (Return tt, w, [Table table_title columns rows])
  else raise MarkupError.

(** [e.response.json()["errors"][0]["message"]] *)
Definition error_message (e : request_exception) : M json :=
  data <- exc_response_json e ;;
  errors <- getitem data "errors" ;;
  first <- lift (first_item errors) ;;
  getitem first "message".

(** Lines 80 to 100 of [add_dns_record]: the prompts and the body. *)
Definition add_form : M dict :=
  console_print (nl ++ "[bold]Add a new DNS Record[/bold]") ;;
  type_in <- console_input "Enter record type (A, AAAA, CNAME, TXT, etc.): " ;;
  let record_type := str_upper type_in in
  name <- console_input ("Enter name (e.g., 'subdomain' for subdomain." ++
                         str_opt (CF_DOMAIN cfg) ++ "): ") ;;
  content <- console_input "Enter content (e.g., IP address or another domain): " ;;
  ttl_str <- console_input "Enter TTL (in seconds, 1 for auto): " ;;
  ttl <- (if Py.nonempty ttl_str then to_int ttl_str else ret 1) ;;
  let data : dict :=
    [ ("type", JStr record_type); ("name", JStr name);
      ("content", JStr content); ("ttl", JNum ttl) ] in
  data <- (if String.eqb record_type "MX" then
             priority_in <- console_input "Enter priority: " ;;
             priority <- to_int priority_in ;;
             ret (dict_set "priority" (JNum priority) data)
           else ret data) ;;
  proxied_in <- console_input "Enable Cloudflare proxy? (yes/no): " ;;
  let proxied_input := Py.lower proxied_in in
  let proxied := String.eqb proxied_input "yes" in
  ret (dict_set "proxied" (JBool proxied) data).

Definition add_dns_record (zone_id : json) : M unit :=
  data <- add_form ;;
  let url := API_BASE_URL ++ "/zones/" ++ py_str zone_id ++ "/dns_records" in
  try_except
    (response <- requests_call POST url (Some data) ;;
     raise_for_status response ;;
     console_print (nl ++ "[bold green]Successfully added DNS record.[/bold green]"))
    (fun e =>
       msg <- error_message e ;;
       console_print ("[bold red]Error adding DNS record: " ++ py_str msg ++
                      "[/bold red]")).

(** [next((r for r in records if r['id'] == record_id), None)] *)
Fixpoint find_record (records : list json) (record_id : string)
  : outcome (option json) :=
  match records with
  | [] => Return None
  | r :: rest =>
      let? id := subscript r "id" in
      if eq_str id record_id then Return (Some r)
      else find_record rest record_id
  end.

(** Lines 123 to 148 of [update_dns_record]: the prompts and the body. *)
Definition update_form (record_to_update : json) : M dict :=
  console_print (nl ++ "[bold]Update DNS Record[/bold] " ++
                 "(press Enter to keep current value)") ;;
  shown <- getitem record_to_update "type" ;;
  type_in <- console_input ("Enter new type (" ++ py_str shown ++ "): ") ;;
  record_type <- (if Py.nonempty type_in then ret (JStr type_in)
                  else getitem record_to_update "type") ;;
  shown <- getitem record_to_update "name" ;;
  name_in <- console_input ("Enter new name (" ++ py_str shown ++ "): ") ;;
  name <- (if Py.nonempty name_in then ret (JStr name_in)
           else getitem record_to_update "name") ;;
  shown <- getitem record_to_update "content" ;;
  content_in <- console_input ("Enter new content (" ++ py_str shown ++ "): ") ;;
  content <- (if Py.nonempty content_in then ret (JStr content_in)
              else getitem record_to_update "content") ;;
  shown <- getitem record_to_update "ttl" ;;
  ttl_str <- console_input ("Enter new TTL (" ++ py_str shown ++ "): ") ;;
  ttl <- (if Py.nonempty ttl_str then n <- to_int ttl_str ;; ret (JNum n)
          else getitem record_to_update "ttl") ;;
  let data : dict :=
    [ ("type", record_type); ("name", name);
      ("content", content); ("ttl", ttl) ] in
  data <- (if eq_str record_type "MX" then
             default_priority <-
               lift (py_get record_to_update "priority" (JStr EmptyString)) ;;
             priority_str <- console_input ("Enter new priority (" ++
                                            py_str default_priority ++ "): ") ;;
             if Py.nonempty priority_str then
               n <- to_int priority_str ;;
               ret (dict_set "priority" (JNum n) data)
             else if truthy default_priority then
               ret (dict_set "priority" default_priority data)
             else ret data
           else ret data) ;;
  shown <- getitem record_to_update "proxied" ;;
  proxied_in <- console_input ("Enable Cloudflare proxy? (" ++
                               (if truthy shown then "yes" else "no") ++ "): ") ;;
  let proxied_input := Py.lower proxied_in in
  proxied <- (if Py.nonempty proxied_input
              then ret (JBool (String.eqb proxied_input "yes"))
              else getitem record_to_update "proxied") ;;
  ret (dict_set "proxied" proxied data).

Definition not_found : M unit :=
  console_print "[bold red]Record ID not found.[/bold red]".

Definition update_dns_record (zone_id : json) (records : list json) : M unit :=
  display_dns_records records ;;
  record_id <- console_input (nl ++ "Enter the ID of the record to update: ") ;;
  found <- lift (find_record records record_id) ;;
  match found with
  | None => not_found
  | Some record_to_update =>
      if negb (truthy record_to_update) then not_found
      else
        data <- update_form record_to_update ;;
        let url := API_BASE_URL ++ "/zones/" ++ py_str zone_id ++
                   "/dns_records/" ++ record_id in
        try_except
          (response <- requests_call PUT url (Some data) ;;
           raise_for_status response ;;
           console_print (nl ++ "[bold green]Successfully updated DNS record." ++
                          "[/bold green]"))
          (fun e =>
             msg <- error_message e ;;
             console_print ("[bold red]Error updating DNS record: " ++
                            py_str msg ++ "[/bold red]"))
  end.

(** [any(r['id'] == record_id for r in records)] *)
Fixpoint any_id (records : list json) (record_id : string) : outcome bool :=
  match records with
  | [] => Return false
  | r :: rest =>
      let? id := subscript r "id" in
      if eq_str id record_id then Return true else any_id rest record_id
  end.

Definition delete_dns_record (zone_id : json) (records : list json) : M unit :=
  display_dns_records records ;;
  record_id <- console_input (nl ++ "Enter the ID of the record to delete: ") ;;
  known <- lift (any_id records record_id) ;;
  if negb known then not_found
  else
    confirm_in <- console_input ("Are you sure you want to delete record " ++
                                 record_id ++ "? (yes/no): ") ;;
    let confirmation := Py.lower confirm_in in
    if String.eqb confirmation "yes" then
      let url := API_BASE_URL ++ "/zones/" ++ py_str zone_id ++
                 "/dns_records/" ++ record_id in
      try_except
        (response <- requests_call DELETE url None ;;
         raise_for_status response ;;
         console_print (nl ++ "[bold green]Successfully deleted DNS record." ++
                        "[/bold green]"))
        (fun e =>
           console_print ("[bold red]Error deleting DNS record: " ++
                          message e ++ "[/bold red]"))
    else console_print "Deletion cancelled.".

(** *** The menu loop *)

(** The keys of a parsed object in the order a [for] loop sees them. *)
Fixpoint first_keys (seen : list string) (d : dict) : list json :=
  match d with
  | [] => []
  | (k, _) :: r =>
      if existsb (String.eqb k) seen then first_keys seen r
      else JStr k :: first_keys (k :: seen) r
  end.

Fixpoint chars (s : string) : list json :=
  match s with
  | EmptyString => []
  | String c r => JStr (String c EmptyString) :: chars r
  end.

(** The items [for record in records] goes through: the elements of an
    array, the keys of an object, the characters of a text; the other
    values are not iterable. *)
Definition py_iter (v : json) : outcome (list json) :=
  match v with
  | JArr l => Return l
  | JObj d => Return (first_keys [] d)
  | JStr s => Return (chars s)
  | _ => Raise TypeError
  end.

(** [if records: action(records)], the first step of every action being
    the loop of [display_dns_records] over the records. *)
Definition when_records (records : json) (action : list json -> M unit) : M unit :=
  if truthy records then
    items <- lift (py_iter records) ;;
    action items
  else ret tt.

(** Lines 198 to 216 of [main]: the action of a choice; [false] stands
    for [break]. *)
Definition dispatch (zone_id : json) (choice : string) : M bool :=
  if String.eqb choice "1" then
    records <- get_dns_records zone_id ;;
    when_records records display_dns_records ;;
    ret true
  else if String.eqb choice "2" then
    add_dns_record zone_id ;;
    ret true
  else if String.eqb choice "3" then
    records <- get_dns_records zone_id ;;
    when_records records (update_dns_record zone_id) ;;
    ret true
  else if String.eqb choice "4" then
    records <- get_dns_records zone_id ;;
    when_records records (delete_dns_record zone_id) ;;
    ret true
  else if String.eqb choice "5" then
    console_print "Exiting." ;;
    ret false
  else
    console_print "[bold red]Invalid choice. Please try again.[/bold red]" ;;
    ret true.

(** One round of the [while True] loop of [main]. *)
Definition menu_round (zone_id : json) : M bool :=
  console_print (nl ++ "[bold cyan]Cloudflare DNS Manager[/bold cyan]") ;;
  console_print "1. List DNS Records" ;;
  console_print "2. Add DNS Record" ;;
  console_print "3. Update DNS Record" ;;
  console_print "4. Delete DNS Record" ;;
  console_print "5. Exit" ;;
  choice <- console_input "Enter your choice: " ;;
  dispatch zone_id choice.

(** The loop, for at most [fuel] rounds; [None] tells that the rounds ran
    out before the loop ended. *)
Fixpoint menu_loop (fuel : nat) (zone_id : json) : M (option unit) :=
  match fuel with
  | O => ret None
  | S fuel' =>
      continue <- menu_round zone_id ;;
      if continue then menu_loop fuel' zone_id else ret (Some tt)
  end.

Definition missing_credentials : string :=
  "[bold red]Error: Missing credentials. Make sure CF_EMAIL, CF_API_KEY, " ++
  "and CF_DOMAIN are set in your .env file.[/bold red]".

(** [main]: every round reads one line at least, so one round more than
    there are lines to read is enough (see [main_ends]). *)
Definition main : M (option unit) :=
  match CF_EMAIL cfg, CF_API_KEY cfg, CF_DOMAIN cfg with
  | Some email, Some key, Some domain =>
      if Py.nonempty email && Py.nonempty key && Py.nonempty domain then
        zone_id <- get_zone_id domain ;;
        fun w => menu_loop (S (length (stdin w))) zone_id w
      else
        console_print missing_credentials ;;
        sys_exit 1
  | _, _, _ =>
      console_print missing_credentials ;;
      sys_exit 1
  end.

(** ** Specification-side notions *)

(** The HTTP calls among the events of a run. *)
Fixpoint requests_in (l : list event) : list (http_method * string * option dict) :=
  match l with
  | [] => []
  | Request m url _ data :: r => (m, url, data) :: requests_in r
  | _ :: r => requests_in r
  end.



(** The six keys a table row reads with a subscript. *)
Definition row_keys : list string :=
  ["id"; "type"; "name"; "content"; "ttl"; "proxied"].

(** The record is an object that has the six keys. *)
Definition has_row_keys (record : json) : bool :=
  match record with
  | JObj d => forallb (fun k => dict_has k d) row_keys
  | _ => false
  end.

Definition is_object (record : json) : Prop := exists d, record = JObj d.

(** The record gives a row, and [rich] takes every cell of it. *)
Definition row_ok (record : json) : bool :=
  match row_of record with
  | Return row => forallb cell_renderable row
  | Raise _ => false
  end.

(** The table of the records is built and printed. *)
Definition renders (records : list json) : bool :=
  match rows_of records with
  | Return rows => forallb (markup_ok lib) (table_texts table_title rows)
  | Raise _ => false
  end.

(** The entered id is the id of some record of the snapshot. *)
Definition id_in (record_id : string) (records : list json) : Prop :=
  exists d, In (JObj d) records /\ dict_get "id" d = Some (JStr record_id).

(** The word yes, compared without regard to case: its eight spellings. *)
Definition yes_spellings : list string :=
  ["yes"; "yeS"; "yEs"; "yES"; "Yes"; "YeS"; "YEs"; "YES"].

(** A computation that talks to the console only. *)
Definition quiet {A : Type} (m : M A) : Prop :=
  forall w, requests_in (events (m w)) = [] /\
            net (final (m w)) = net w /\ sent (final (m w)) = sent w.

(** [returns x a w']: the run [x] returned [a] and left the world [w']. *)
Definition returns {A : Type} (x : outcome A * world * list event)
    (a : A) (w' : world) : Prop :=
  result x = Return a /\ final x = w'.

(** The endpoint of one record, the target of [PUT] and [DELETE]. *)
Definition record_url (zone_id : json) (record_id : string) : string :=
  API_BASE_URL ++ "/zones/" ++ py_str zone_id ++ "/dns_records/" ++ record_id.

(** The entries of a snapshot record for one key. *)
Definition pick (k : string) (d : dict) : dict :=
  match dict_get k d with
  | Some v => [(k, v)]
  | None => []
  end.

(** The field values {type, name, content, ttl, priority-if-present,
    proxied} of a snapshot record. *)
Definition snapshot_fields (d : dict) : dict :=
  (pick "type" d ++ pick "name" d ++ pick "content" d ++ pick "ttl" d ++
   pick "priority" d ++ pick "proxied" d)%list.

(** The same without the priority. *)
Definition fields_without_priority (d : dict) : dict :=
  (pick "type" d ++ pick "name" d ++ pick "content" d ++ pick "ttl" d ++
   pick "proxied" d)%list.

(** A prompt left blank. *)
Definition blank : string := EmptyString.

(** The invariant of the data model, read on a request body. *)
Definition priority_iff_MX (b : dict) : Prop :=
  dict_has "priority" b = true <-> dict_get "type" b = Some (JStr "MX").



(** C1 as the specification states it: the body of an all-blank update is
    the snapshot record's field values. *)
Definition blank_update_is_noop (zone_id : json) (records : list json)
    (w : world) (record_id : string) (d : dict) : Prop :=
  requests_in (events (update_dns_record zone_id records w)) =
  [ (PUT, record_url zone_id record_id, Some (snapshot_fields d)) ].

(** *** Sample data *)

Definition sample_cfg : config :=
  {| CF_EMAIL := Some "admin@example.com";
     CF_API_KEY := Some "0123456789abcdef";
     CF_DOMAIN := Some "example.com" |}.

Definition sample_zone : json := JStr "z1".

(** A text without an opening bracket holds no markup tag. *)
Fixpoint bracket_free (s : string) : bool :=
  match s with
  | EmptyString => true
  | String c r => negb (Ascii.eqb c "[") && bracket_free r
  end.

(** A library for the sample runs, whose texts are ASCII, short and free of
    brackets. *)
Definition sample_lib : library :=
  {| upper_beyond := fun s => s;
     int_beyond := fun _ => None;
     markup_ok := bracket_free |}.

Definition world_of (lines : list string) (rp : reply) : world :=
  {| stdin := lines; net := fun _ => rp; sent := 0 |}.

Definition ok_reply : reply :=
  Reply {| status_code := 200; reason := "OK";
           resp_url := "https://api.cloudflare.com/client/v4/";
           body := inr (JObj [("success", JBool true)]) |}.

Definition zone_response : response :=
  {| status_code := 200; reason := "OK";
     resp_url := "https://api.cloudflare.com/client/v4/zones?name=example.com";
     body := inr (JObj [("result", JArr [JObj [("id", JStr "z1")]])]) |}.

Definition refused : reply := NoResponse "Connection refused".

Definition a_fields : dict :=
  [ ("id", JStr "r1"); ("type", JStr "A"); ("name", JStr "www");
    ("content", JStr "1.2.3.4"); ("ttl", JNum 1); ("proxied", JBool true) ].

Definition srv_fields : dict :=
  [ ("id", JStr "r2"); ("type", JStr "SRV"); ("name", JStr "_sip._tcp");
    ("content", JStr "5060 sip.example.com"); ("ttl", JNum 300);
    ("priority", JNum 10); ("proxied", JBool false) ].

Definition mx_fields : dict :=
  [ ("id", JStr "r3"); ("type", JStr "MX"); ("name", JStr "example.com");
    ("content", JStr "mail.example.com"); ("ttl", JNum 1);
    ("proxied", JBool false) ].


Definition mx_answers : list string :=
  ["mx"; "mail"; "mail.example.com"; blank; "10"; "no"].



Definition mx_body : dict :=
  [ ("type", JStr "MX"); ("name", JStr "mail");
    ("content", JStr "mail.example.com"); ("ttl", JNum 1);
    ("priority", JNum 10); ("proxied", JBool false) ].

Definition blanks_after (record_id : string) : list string :=
  [record_id; blank; blank; blank; blank; blank; blank].

(** *** Notions for the rest of the program *)

(** The endpoint of the records of a zone, the target of the listing [GET]
    and of [POST]. *)
Definition records_url (zone_id : json) : string :=
  API_BASE_URL ++ "/zones/" ++ py_str zone_id ++ "/dns_records".

(** The world after one call to the network. *)
Definition after_call (w : world) : world :=
  {| stdin := stdin w; net := net w; sent := S (sent w) |}.


(** [all([CF_EMAIL, CF_API_KEY, CF_DOMAIN])] *)
Definition configured (c : config) : bool :=
  forallb (fun o => match o with
                    | Some s => Py.nonempty s
                    | None => false
                    end)
          [CF_EMAIL c; CF_API_KEY c; CF_DOMAIN c].

(** The six lines a round of the menu prints before it prompts. *)
Definition menu_text : list event :=
  [ Printed (nl ++ "[bold cyan]Cloudflare DNS Manager[/bold cyan]");
    Printed "1. List DNS Records";
    Printed "2. Add DNS Record";
    Printed "3. Update DNS Record";
    Printed "4. Delete DNS Record";
    Printed "5. Exit" ].

(** A computation that leaves no more console input than it found. *)
Definition consumes {A : Type} (m : M A) : Prop :=
  forall w, (length (stdin (final (m w))) <= length (stdin w))%nat.

Definition is_some {A : Type} (o : option A) : bool :=
  match o with Some _ => true | None => false end.

(** *** More sample data *)

Definition listing_of (records : list json) : reply :=
  Reply {| status_code := 200; reason := "OK";
           resp_url := "https://api.cloudflare.com/client/v4/zones/z1/dns_records";
           body := inr (JObj [("result", JArr records)]) |}.


Definition not_json : response :=
  {| status_code := 200; reason := "OK";
     resp_url := "https://api.cloudflare.com/client/v4/";
     body := inl "Expecting value: line 1 column 1 (char 0)" |}.

Definition no_result : response :=
  {| status_code := 200; reason := "OK";
     resp_url := "https://api.cloudflare.com/client/v4/";
     body := inr (JObj [("success", JBool true)]) |}.

(** The zone lookup answered with zone z1, every later call with [rp]. *)
Definition zone_then (rp : reply) (n : nat) : reply :=
  match n with
  | O => Reply zone_response
  | S _ => rp
  end.

Definition session (lines : list string) (rp : reply) : world :=
  {| stdin := lines; net := zone_then rp; sent := 0 |}.

Definition a_answers : list string := ["A"; "www"; "1.2.3.4"; blank; "no"].

Definition a_body : dict :=
  [ ("type", JStr "A"); ("name", JStr "www"); ("content", JStr "1.2.3.4");
    ("ttl", JNum 1); ("proxied", JBool false) ].

Definition a_row : list cell :=
  [ Cell (JStr "r1"); Cell (JStr "A"); Cell (JStr "www"); Cell (JStr "1.2.3.4");
    Text "1"; Text "N/A"; Text "On" ].

Definition odd_listing : reply :=
  Reply {| status_code := 200; reason := "OK";
           resp_url := "https://api.cloudflare.com/client/v4/zones/z1/dns_records";
           body := inr (JObj [("result", JStr "none")]) |}.

Definition keyless_cfg : config :=
  {| CF_EMAIL := Some "admin@example.com";
     CF_API_KEY := None;
     CF_DOMAIN := Some "example.com" |}.

(** ** Zone resolution and record listing *)

Lemma status_ok (r : response) :
  status_code r < 400 \/ 600 <= status_code r ->
  (400 <=? status_code r) && (status_code r <? 600) = false.
Proof.
  intros [H | H].
  - apply andb_false_iff. left. apply Z.leb_gt. exact H.
  - apply andb_false_iff. right. apply Z.ltb_ge. exact H.
Qed.


(** C6. Zone resolution on a response that carries a result list: an empty
    list ends the process with exit code 1 after the error is printed, a
    list of one or more entries makes [get_zone_id] return the first
    entry's id. *)
Theorem get_zone_id_first_or_exit
    (domain : string) (w : world) (r : response) (d : dict) (l : list json) :
  net w (sent w) = Reply r ->
  status_code r < 400 \/ 600 <= status_code r ->
  body r = inr (JObj d) ->
  dict_get "result" d = Some (JArr l) ->
  (l = [] ->
   result (get_zone_id domain w) = Raise (SystemExit 1) /\
   events (get_zone_id domain w) =
     [ Request GET (API_BASE_URL ++ "/zones?name=" ++ domain) HEADERS None;
       Printed ("[bold red]Error: Domain '" ++ domain ++
              "' not found in your Cloudflare account.[/bold red]") ]) /\
  (forall o rest id,
     l = JObj o :: rest -> dict_get "id" o = Some id ->
     result (get_zone_id domain w) = Return id).
Proof.
  intros Hnet Hst Hbody Hres.
  apply status_ok in Hst.
  unfold get_zone_id, try_except, bind, requests_call, raise_for_status,
    response_json, getitem, lift.
  rewrite Hnet, Hst, Hbody. cbn. rewrite Hres.
  split.
  - intros ->. cbn. split; reflexivity.
  - intros o rest id -> Hid. cbn. rewrite Hid. reflexivity.
Qed.


(** ** Rendering *)

Lemma display_dns_records_eq (records : list json) (w : world) :
  display_dns_records records w =
  match rows_of records with
  | Return rows =>
      if forallb (markup_ok lib) (table_texts table_title rows)
      then (Return tt, w,
            [Table ("DNS Records for " ++ str_opt (CF_DOMAIN cfg)) columns rows])
      else (Raise MarkupError, w, [])
  | Raise e => (Raise e, w, [])
  end.
Proof.
  unfold display_dns_records, bind, lift.
  destruct (rows_of records) as [rows | e]; [ | reflexivity ].
  destruct (forallb (markup_ok lib) (table_texts table_title rows)); reflexivity.
Qed.

Lemma row_of_complete (d : dict) :
  has_row_keys (JObj d) = true ->
  exists row,
    row_of (JObj d) = Return row /\
    (dict_get "priority" d = None -> nth_error row 5 = Some (Text "N/A")).
Proof.
  unfold has_row_keys, row_keys, dict_has, row_of, subscript, py_get.
  cbn [forallb].
  destruct (dict_get "id" d); [ | discriminate ].
  destruct (dict_get "type" d); [ | discriminate ].
  destruct (dict_get "name" d); [ | discriminate ].
  destruct (dict_get "content" d); [ | discriminate ].
  destruct (dict_get "ttl" d); [ | discriminate ].
  destruct (dict_get "proxied" d); [ | discriminate ].
  intros _. cbn [obind].
  destruct (dict_get "priority" d) as [p | ]; cbn [obind];
    eexists; (split; [ reflexivity | ]).
  - discriminate.
  - reflexivity.
Qed.

Lemma row_of_incomplete (d : dict) :
  has_row_keys (JObj d) = false ->
  exists k,
    In k row_keys /\ dict_get k d = None /\
    row_of (JObj d) = Raise (KeyError (JStr k)).
Proof.
  unfold has_row_keys, row_keys, dict_has, row_of, subscript, py_get.
  cbn [forallb In].
  destruct (dict_get "id" d) eqn:E1;
    [ | intros _; exists "id"; cbn; rewrite E1; auto 10 ].
  destruct (dict_get "type" d) eqn:E2;
    [ | intros _; exists "type"; cbn; rewrite E2; auto 10 ].
  destruct (dict_get "name" d) eqn:E3;
    [ | intros _; exists "name"; cbn; rewrite E3; auto 10 ].
  destruct (dict_get "content" d) eqn:E4;
    [ | intros _; exists "content"; cbn; rewrite E4; auto 10 ].
  destruct (dict_get "ttl" d) eqn:E5;
    [ | intros _; exists "ttl"; cbn; rewrite E5; auto 10 ].
  destruct (dict_get "proxied" d) eqn:E6; [ discriminate | ].
  intros _; exists "proxied"; cbn [obind].
  destruct (dict_get "priority" d); cbn [obind]; rewrite E6; auto 10.
Qed.

(** A record that gives a row is an object with the six keys. *)
Lemma row_of_returns (record : json) (row : list cell) :
  row_of record = Return row ->
  has_row_keys record = true /\
  forall d, record = JObj d -> dict_get "priority" d = None ->
            nth_error row 5 = Some (Text "N/A").
Proof.
  intros Hrow. destruct record; try discriminate Hrow.
  destruct (has_row_keys (JObj d)) eqn:Hk.
  - split; [ reflexivity | ]. intros d' [= <-] Hp.
    destruct (row_of_complete d Hk) as (row' & Hrow' & Hna).
    rewrite Hrow in Hrow'. injection Hrow' as <-. auto.
  - destruct (row_of_incomplete d Hk) as (k & _ & _ & Hraise).
    rewrite Hrow in Hraise. discriminate Hraise.
Qed.

Lemma row_ok_keys (record : json) : row_ok record = true -> has_row_keys record = true.
Proof.
  unfold row_ok. destruct (row_of record) as [row | e] eqn:Hrow; [ | discriminate ].
  intros _. apply (row_of_returns record row Hrow).
Qed.

Lemma rows_of_returns (records : list json) (rows : list (list cell)) :
  rows_of records = Return rows ->
  forallb row_ok records = true /\
  Forall2 (fun record row =>
             row_of record = Return row /\
             forall d, record = JObj d -> dict_get "priority" d = None ->
                       nth_error row 5 = Some (Text "N/A"))
          records rows.
Proof.
  revert rows. induction records as [ | r rest IH ]; cbn [rows_of forallb].
  - intros rows [= <-]. split; [ reflexivity | constructor ].
  - intros rows. unfold row_ok, add_row.
    destruct (row_of r) as [row | e] eqn:Hrow; cbn [obind]; [ | discriminate ].
    destruct (forallb cell_renderable row); cbn [obind]; [ | discriminate ].
    destruct (rows_of rest) as [rows' | e]; cbn [obind]; [ | discriminate ].
    intros [= <-]. destruct (IH rows' eq_refl) as [Hok Hall].
    split; [ cbn [andb]; exact Hok | ].
    constructor; [ | exact Hall ].
    split; [ exact Hrow | apply (row_of_returns r row Hrow) ].
Qed.

Lemma rows_of_ok (records : list json) :
  forallb row_ok records = true -> exists rows, rows_of records = Return rows.
Proof.
  induction records as [ | r rest IH ]; cbn [rows_of forallb].
  - intros _. exists []. reflexivity.
  - intros H. apply andb_true_iff in H. destruct H as [Hr Hrest].
    destruct (IH Hrest) as (rows & ->).
    unfold row_ok in Hr. unfold add_row.
    destruct (row_of r) as [row | e]; [ | discriminate ].
    cbn [obind]. rewrite Hr. cbn [obind]. eauto.
Qed.

Lemma forallb_row_ok_keys (records : list json) :
  forallb row_ok records = true -> forallb has_row_keys records = true.
Proof.
  rewrite !forallb_forall. intros H r Hr. apply row_ok_keys. auto.
Qed.

(** What it means that the table was printed. *)
Lemma renders_inv (records : list json) :
  renders records = true ->
  exists rows,
    rows_of records = Return rows /\
    forallb (markup_ok lib) (table_texts table_title rows) = true /\
    forallb has_row_keys records = true.
Proof.
  unfold renders. destruct (rows_of records) as [rows | e] eqn:Hrows;
    [ | discriminate ].
  intros Hm. exists rows. split; [ reflexivity | ]. split; [ exact Hm | ].
  apply forallb_row_ok_keys. apply (rows_of_returns records rows Hrows).
Qed.

Lemma display_dns_records_shown (records : list json) (w : world) :
  result (display_dns_records records w) = Return tt -> renders records = true.
Proof.
  rewrite display_dns_records_eq. unfold renders.
  destruct (rows_of records) as [rows | e]; [ | discriminate ].
  destruct (forallb (markup_ok lib) (table_texts table_title rows));
    [ reflexivity | discriminate ].
Qed.

(** [renders] is the condition under which the rendering returns. *)
Lemma renders_iff_returns (records : list json) (w : world) :
  renders records = true <-> result (display_dns_records records w) = Return tt.
Proof.
  split; [ | apply display_dns_records_shown ].
  intros H. destruct (renders_inv records H) as (rows & Hrows & Hm & _).
  rewrite display_dns_records_eq, Hrows, Hm. reflexivity.
Qed.

Lemma display_dns_records_table (records : list json) (rows : list (list cell)) :
  rows_of records = Return rows ->
  renders records = true ->
  forallb (markup_ok lib) (table_texts table_title rows) = true.
Proof. unfold renders. intros ->. auto. Qed.

Lemma rows_of_stops (before after : list json) (r : json) (e : exn) :
  forallb row_ok before = true ->
  row_of r = Raise e ->
  rows_of (before ++ r :: after) = Raise e.
Proof.
  intros Hbefore Hr.
  induction before as [ | x before IH ]; cbn [app rows_of].
  - rewrite Hr. reflexivity.
  - cbn [forallb] in Hbefore. apply andb_true_iff in Hbefore.
    destruct Hbefore as [Hx Hrest]. unfold row_ok in Hx. unfold add_row.
    destruct (row_of x) as [row | e']; [ | discriminate ].
    cbn [obind]. rewrite Hx. cbn [obind]. rewrite (IH Hrest). reflexivity.
Qed.

(** C10. The table is printed only when every record is an object with the
    six keys id, type, name, content, ttl and proxied, and then each record
    missing the priority key has the text N/A in its Priority column.  A
    record that lacks one of the six keys raises [KeyError] on a key it
    lacks when the loop comes to it, and nothing is printed. *)
Theorem display_dns_records_needs_row_keys (records : list json) (w : world) :
  (result (display_dns_records records w) = Return tt ->
   forallb has_row_keys records = true /\
   exists rows,
     display_dns_records records w =
       (Return tt, w,
        [Table ("DNS Records for " ++ str_opt (CF_DOMAIN cfg)) columns rows]) /\
     Forall2 (fun record row =>
                row_of record = Return row /\
                forall d, record = JObj d -> dict_get "priority" d = None ->
                          nth_error row 5 = Some (Text "N/A"))
             records rows) /\
  (forall before d after,
     records = (before ++ JObj d :: after)%list ->
     forallb row_ok before = true ->
     has_row_keys (JObj d) = false ->
     exists k,
       In k row_keys /\ dict_get k d = None /\
       display_dns_records records w = (Raise (KeyError (JStr k)), w, [])).
Proof.
  split.
  - intros H. apply display_dns_records_shown in H.
    destruct (renders_inv records H) as (rows & Hrows & Hm & Hkeys).
    split; [ exact Hkeys | ]. exists rows.
    rewrite display_dns_records_eq, Hrows, Hm.
    split; [ reflexivity | apply (rows_of_returns records rows Hrows) ].
  - intros before d after -> Hbefore Hd.
    destruct (row_of_incomplete d Hd) as (k & Hk & Hnone & Hraise).
    exists k. split; [ exact Hk | ]. split; [ exact Hnone | ].
    rewrite display_dns_records_eq, (rows_of_stops _ _ _ _ Hbefore Hraise).
    reflexivity.
Qed.

(** ** Looking a record up by id *)

Lemma eq_str_true (v : json) (s : string) :
  eq_str v s = true <-> v = JStr s.
Proof.
  destruct v; cbn; try (split; [ discriminate | intros H; discriminate H ]).
  rewrite String.eqb_eq. split; [ intros -> | intros [= ->] ]; reflexivity.
Qed.

Lemma has_row_keys_id (r : json) :
  has_row_keys r = true ->
  exists d id, r = JObj d /\ dict_get "id" d = Some id /\ truthy r = true.
Proof.
  destruct r; try discriminate. unfold has_row_keys, row_keys, dict_has.
  cbn [forallb]. destruct (dict_get "id" d) as [id | ] eqn:E; [ | discriminate ].
  intros _. exists d, id.
  split; [ reflexivity | split; [ exact E | ] ].
  destruct d; [ discriminate | reflexivity ].
Qed.

Lemma lookup_absent (records : list json) (record_id : string) :
  forallb has_row_keys records = true ->
  ~ id_in record_id records ->
  find_record records record_id = Return None /\
  any_id records record_id = Return false.
Proof.
  induction records as [ | r rest IH ]; cbn [forallb find_record any_id].
  - intros _ _. split; reflexivity.
  - intros H Habs. apply andb_true_iff in H. destruct H as [Hr Hrest].
    destruct (has_row_keys_id r Hr) as (d & id & -> & Hid & _).
    unfold subscript. rewrite Hid. cbn [obind].
    destruct (eq_str id record_id) eqn:E.
    + apply eq_str_true in E. subst id. exfalso. apply Habs.
      exists d. split; [ left; reflexivity | exact Hid ].
    + apply IH; [ exact Hrest | ].
      intros (d' & Hin & Hd'). apply Habs. exists d'. split; [ right | ]; assumption.
Qed.

Lemma lookup_present (records : list json) (record_id : string) :
  forallb has_row_keys records = true ->
  id_in record_id records ->
  any_id records record_id = Return true /\
  exists d,
    find_record records record_id = Return (Some (JObj d)) /\
    In (JObj d) records /\ has_row_keys (JObj d) = true /\
    dict_get "id" d = Some (JStr record_id).
Proof.
  induction records as [ | r rest IH ]; cbn [forallb find_record any_id].
  - intros _ (d & [] & _).
  - intros H Hin. apply andb_true_iff in H. destruct H as [Hr Hrest].
    destruct (has_row_keys_id r Hr) as (d & id & -> & Hid & _).
    unfold subscript. rewrite Hid. cbn [obind].
    destruct (eq_str id record_id) eqn:E.
    + apply eq_str_true in E. subst id. split; [ reflexivity | ].
      exists d. repeat split; auto. left; reflexivity.
    + destruct IH as (Hany & d' & Hfind & Hin' & Hk & Hid'); [ exact Hrest | | ].
      * destruct Hin as (d' & [Heq | Hin'] & Hd').
        -- injection Heq as <-. rewrite Hid in Hd'. injection Hd' as ->.
           cbn in E. rewrite String.eqb_refl in E. discriminate.
        -- exists d'. split; assumption.
      * split; [ exact Hany | ]. exists d'. repeat split; auto. right; exact Hin'.
Qed.

(** C4. When the table of the snapshot is rendered and the entered id is
    the id of no record of the snapshot, the update and the delete action
    print that the record id was not found and return: no request is sent,
    and the network is left as it was. *)
Theorem absent_id_no_write
    (zone_id : json) (records : list json) (w : world)
    (record_id : string) (rest : list string) :
  renders records = true ->
  stdin w = record_id :: rest ->
  ~ id_in record_id records ->
  exists rows,
    rows_of records = Return rows /\
    update_dns_record zone_id records w =
      (Return tt, {| stdin := rest; net := net w; sent := sent w |},
       [ Table ("DNS Records for " ++ str_opt (CF_DOMAIN cfg)) columns rows;
         Prompt (nl ++ "Enter the ID of the record to update: ");
         Printed "[bold red]Record ID not found.[/bold red]" ]) /\
    delete_dns_record zone_id records w =
      (Return tt, {| stdin := rest; net := net w; sent := sent w |},
       [ Table ("DNS Records for " ++ str_opt (CF_DOMAIN cfg)) columns rows;
         Prompt (nl ++ "Enter the ID of the record to delete: ");
         Printed "[bold red]Record ID not found.[/bold red]" ]).
Proof.
  intros Hkeys Hin Habs.
  pose proof Hkeys as Hshown.
  destruct (renders_inv records Hkeys) as (rows & Hrows & Hm & Hkeys0).
  clear Hkeys. rename Hkeys0 into Hkeys.
  destruct (lookup_absent records record_id Hkeys Habs) as [Hfind Hany].
  exists rows. split; [ exact Hrows | ].
  unfold update_dns_record, delete_dns_record, bind.
  rewrite !display_dns_records_eq, Hrows, Hm.
  unfold console_input. rewrite Hin.
  unfold lift. rewrite Hfind, Hany. cbn.
  split; reflexivity.
Qed.

(** ** Deletion *)

Ltac by_char c :=
  destruct c as [[] [] [] [] [] [] [] []]; vm_compute;
  intros H; try discriminate H; auto.

Lemma lower_char_y (c : ascii) :
  Py.lower_char c = "y"%char -> c = "y"%char \/ c = "Y"%char.
Proof. by_char c. Qed.

Lemma lower_char_e (c : ascii) :
  Py.lower_char c = "e"%char -> c = "e"%char \/ c = "E"%char.
Proof. by_char c. Qed.

Lemma lower_char_s (c : ascii) :
  Py.lower_char c = "s"%char -> c = "s"%char \/ c = "S"%char.
Proof. by_char c. Qed.

Lemma lower_is_yes (s : string) :
  Py.lower s = "yes" <-> In s yes_spellings.
Proof.
  split.
  - destruct s as [ | a [ | b [ | c [ | ] ] ] ]; cbn [Py.lower]; try discriminate.
    intros [= Ha Hb Hc].
    apply lower_char_y in Ha. apply lower_char_e in Hb. apply lower_char_s in Hc.
    unfold yes_spellings.
    destruct Ha as [-> | ->], Hb as [-> | ->], Hc as [-> | ->]; cbn; auto 10.
  - unfold yes_spellings. cbn [In].
    intros H. repeat (destruct H as [<- | H]; [ reflexivity | ]). destruct H.
Qed.

(** C3. Once the table of the snapshot is rendered and the entered id is
    found, the DELETE call is made if and only if the confirmation is yes in
    any mix of upper and lower case; any other confirmation, the empty one
    included, prints that the deletion is cancelled, sends nothing and
    leaves the network as it was. *)
Theorem delete_iff_confirmed
    (zone_id : json) (records : list json) (w : world)
    (record_id confirm : string) (rest : list string) :
  renders records = true ->
  stdin w = record_id :: confirm :: rest ->
  id_in record_id records ->
  (In confirm yes_spellings ->
   requests_in (events (delete_dns_record zone_id records w)) =
     [ (DELETE, API_BASE_URL ++ "/zones/" ++ py_str zone_id ++
                "/dns_records/" ++ record_id, None) ]) /\
  (~ In confirm yes_spellings ->
   exists rows,
     rows_of records = Return rows /\
     delete_dns_record zone_id records w =
       (Return tt, {| stdin := rest; net := net w; sent := sent w |},
        [ Table ("DNS Records for " ++ str_opt (CF_DOMAIN cfg)) columns rows;
          Prompt (nl ++ "Enter the ID of the record to delete: ");
          Prompt ("Are you sure you want to delete record " ++ record_id ++
                  "? (yes/no): ");
          Printed "Deletion cancelled." ])).
Proof.
  intros Hkeys Hin Hid.
  pose proof Hkeys as Hshown.
  destruct (renders_inv records Hkeys) as (rows & Hrows & Hm & Hkeys0).
  clear Hkeys. rename Hkeys0 into Hkeys.
  destruct (lookup_present records record_id Hkeys Hid) as [Hany _].
  unfold delete_dns_record, bind.
  rewrite display_dns_records_eq, Hrows, Hm.
  unfold console_input. rewrite Hin.
  unfold lift. rewrite Hany. cbn [negb stdin net sent].
  split; intros Hc.
  - apply lower_is_yes in Hc. rewrite Hc. cbn [String.eqb Ascii.eqb Bool.eqb].
    unfold try_except, bind, requests_call, raise_for_status, console_print.
    cbn [stdin net sent].
    destruct (net w (sent w)) as [msg | r]; [ reflexivity | ].
    destruct ((400 <=? status_code r) && (status_code r <? 600)); reflexivity.
  - exists rows. split; [ reflexivity | ].
    destruct (String.eqb (Py.lower confirm) "yes") eqn:E.
    + apply String.eqb_eq in E. apply lower_is_yes in E. contradiction.
    + reflexivity.
Qed.

(** ** The requests of a run *)

Lemma requests_in_app (l1 l2 : list event) :
  requests_in (l1 ++ l2) = (requests_in l1 ++ requests_in l2)%list.
Proof.
  induction l1 as [ | e l1 IH ]; [ reflexivity | ].
  destruct e; cbn; rewrite IH; reflexivity.
Qed.

Lemma quiet_ret {A : Type} (a : A) : quiet (ret a).
Proof. intros w. repeat split. Qed.

Lemma quiet_raise {A : Type} (e : exn) : quiet (@raise A e).
Proof. intros w. repeat split. Qed.

Lemma quiet_lift {A : Type} (o : outcome A) : quiet (lift o).
Proof. intros w. repeat split. Qed.

Lemma quiet_getitem (v : json) (k : string) : quiet (getitem v k).
Proof. apply quiet_lift. Qed.

Lemma quiet_console_print (s : string) : quiet (console_print s).
Proof. intros w. repeat split. Qed.

Lemma quiet_console_input (s : string) : quiet (console_input s).
Proof. intros w. unfold console_input. destruct (stdin w); repeat split. Qed.

Lemma quiet_to_int (s : string) : quiet (to_int s).
Proof. unfold to_int. destruct (int_of s); [ apply quiet_ret | apply quiet_raise ]. Qed.

Lemma quiet_bind {A B : Type} (m : M A) (k : A -> M B) :
  quiet m -> (forall a, quiet (k a)) -> quiet (bind m k).
Proof.
  intros Hm Hk w. unfold bind.
  destruct (Hm w) as (H1 & H2 & H3).
  destruct (m w) as [[[a | e] w1] l1]; cbn in *.
  - destruct (Hk a w1) as (K1 & K2 & K3).
    destruct (k a w1) as [[o w2] l2]; cbn in *.
    rewrite requests_in_app, H1, K1, K2, K3, H2, H3. repeat split.
  - repeat split; assumption.
Qed.

Lemma quiet_if {A : Type} (b : bool) (m1 m2 : M A) :
  quiet m1 -> quiet m2 -> quiet (if b then m1 else m2).
Proof. destruct b; auto. Qed.

Lemma quiet_response_json (r : response) : quiet (response_json r).
Proof.
  unfold response_json. destruct (body r); [ apply quiet_raise | apply quiet_ret ].
Qed.

Lemma quiet_exc_response_json (e : request_exception) : quiet (exc_response_json e).
Proof.
  unfold exc_response_json.
  destruct (exc_response e); [ apply quiet_response_json | apply quiet_raise ].
Qed.

Create HintDb quiet.
#[local] Hint Resolve quiet_ret quiet_raise quiet_lift quiet_getitem
  quiet_console_print quiet_console_input quiet_to_int quiet_if
  quiet_response_json quiet_exc_response_json : quiet.

Ltac quiet_steps :=
  repeat first [ apply quiet_bind; [ | intros ? ]
               | apply quiet_if
               | solve [ auto with quiet ] ].

Lemma quiet_error_message (e : request_exception) : quiet (error_message e).
Proof. unfold error_message. quiet_steps. Qed.

Lemma quiet_add_form : quiet add_form.
Proof. unfold add_form. quiet_steps. Qed.

Lemma quiet_update_form (r : json) : quiet (update_form r).
Proof. unfold update_form. quiet_steps. Qed.

Lemma quiet_display_dns_records (records : list json) :
  quiet (display_dns_records records).
Proof.
  intros w. rewrite display_dns_records_eq.
  destruct (rows_of records) as [rows | e]; [ | repeat split ].
  destruct (forallb (markup_ok lib) (table_texts table_title rows)); repeat split.
Qed.

(** A write: one call, then a report that talks to the console only. *)
Lemma write_requests
    (m : http_method) (url : string) (data : dict) (ok : string)
    (h : request_exception -> M unit) (w : world) :
  (forall e, quiet (h e)) ->
  requests_in (events
    (try_except
       (response <- requests_call m url (Some data) ;;
        raise_for_status response ;;
        console_print ok) h w)) = [ (m, url, Some data) ].
Proof.
  intros Hh. unfold try_except, bind, requests_call, raise_for_status, console_print.
  destruct (net w (sent w)) as [msg | r].
  - match goal with |- context [h ?e ?w1] =>
      destruct (Hh e w1) as (H1 & _); destruct (h e w1) as [[o w2] l2] end.
    cbn in *. rewrite H1. reflexivity.
  - destruct ((400 <=? status_code r) && (status_code r <? 600)); cbn.
    + match goal with |- context [h ?e ?w1] =>
        destruct (Hh e w1) as (H1 & _); destruct (h e w1) as [[o w2] l2] end.
      cbn in *. rewrite H1. reflexivity.
    + reflexivity.
Qed.

Lemma bind_quiet_requests {A B : Type} (m : M A) (k : A -> M B) (w : world) :
  quiet m ->
  requests_in (events (bind m k w)) =
  match result (m w) with
  | Return a => requests_in (events (k a (final (m w))))
  | Raise _ => []
  end.
Proof.
  intros Hm. destruct (Hm w) as (H1 & _). unfold bind.
  destruct (m w) as [[[a | e] w1] l1]; unfold events, result, final in *;
    cbn [fst snd] in *.
  - destruct (k a w1) as [[o w2] l2]. cbn [fst snd].
    rewrite requests_in_app, H1. reflexivity.
  - exact H1.
Qed.

Lemma add_dns_record_requests (zone_id : json) (w : world) :
  requests_in (events (add_dns_record zone_id w)) =
  match result (add_form w) with
  | Return data =>
      [ (POST, API_BASE_URL ++ "/zones/" ++ py_str zone_id ++ "/dns_records",
         Some data) ]
  | Raise _ => []
  end.
Proof.
  unfold add_dns_record. rewrite bind_quiet_requests by apply quiet_add_form.
  destruct (result (add_form w)); [ | reflexivity ].
  apply write_requests. intros e. quiet_steps.
Qed.

(** ** Creation *)

#[local] Arguments Py.nonempty : simpl never.
#[local] Arguments int_of : simpl never.
#[local] Arguments str_upper : simpl never.
#[local] Arguments py_str : simpl never.
#[local] Arguments String.append : simpl never.

Lemma add_form_returns (w : world) (data : dict) :
  result (add_form w) = Return data ->
  exists t n c ttl_s tl ttl pri answer,
    stdin w = t :: n :: c :: ttl_s :: tl /\
    (if Py.nonempty ttl_s then int_of ttl_s = Some ttl else ttl = 1) /\
    (if String.eqb (str_upper t) "MX"
     then exists ps p rest, tl = ps :: answer :: rest /\ int_of ps = Some p /\
                            pri = [("priority", JNum p)]
     else exists rest, tl = answer :: rest /\ pri = []) /\
    data = ([ ("type", JStr (str_upper t)); ("name", JStr n);
              ("content", JStr c); ("ttl", JNum ttl) ] ++ pri ++
            [ ("proxied", JBool (String.eqb (Py.lower answer) "yes")) ])%list.
Proof.
  unfold add_form, bind, console_print, console_input, to_int, ret, raise, result.
  destruct w as [inp nt st]. cbn.
  destruct inp as [ | t [ | n [ | c [ | ttl_s tl ] ] ] ]; cbn;
    try discriminate.
  destruct (Py.nonempty ttl_s) eqn:Ene.
  - destruct (int_of ttl_s) as [ttl | ] eqn:Eint; cbn; [ | discriminate ].
    destruct (String.eqb (str_upper t) "MX") eqn:Emx.
    + destruct tl as [ | ps [ | answer rest ] ]; cbn; try discriminate;
        destruct (int_of ps) as [p | ] eqn:Ep; cbn; try discriminate.
      intros [= <-].
      exists t, n, c, ttl_s, (ps :: answer :: rest), ttl, [("priority", JNum p)], answer.
      rewrite Ene, Emx. repeat split; eauto 10.
    + destruct tl as [ | answer rest ]; cbn; try discriminate.
      intros [= <-].
      exists t, n, c, ttl_s, (answer :: rest), ttl, [], answer.
      rewrite Ene, Emx. repeat split; eauto 10.
  - cbn.
    destruct (String.eqb (str_upper t) "MX") eqn:Emx.
    + destruct tl as [ | ps [ | answer rest ] ]; cbn; try discriminate;
        destruct (int_of ps) as [p | ] eqn:Ep; cbn; try discriminate.
      intros [= <-].
      exists t, n, c, ttl_s, (ps :: answer :: rest), 1, [("priority", JNum p)], answer.
      rewrite Ene, Emx. repeat split; eauto 10.
    + destruct tl as [ | answer rest ]; cbn; try discriminate.
      intros [= <-].
      exists t, n, c, ttl_s, (answer :: rest), 1, [], answer.
      rewrite Ene, Emx. repeat split; eauto 10.
Qed.



Lemma add_request_inv (zone_id : json) (w : world)
    (m : http_method) (url : string) (b : dict) :
  In (m, url, Some b) (requests_in (events (add_dns_record zone_id w))) ->
  m = POST /\
  url = API_BASE_URL ++ "/zones/" ++ py_str zone_id ++ "/dns_records" /\
  result (add_form w) = Return b.
Proof.
  rewrite add_dns_record_requests.
  destruct (result (add_form w)) as [data | e]; [ | intros [] ].
  intros [[= <- <- <-] | []]. auto.
Qed.

Lemma add_form_fields (w : world) (b : dict) :
  result (add_form w) = Return b ->
  exists ty,
    dict_get "type" b = Some (JStr ty) /\
    dict_keys b =
      (if String.eqb ty "MX"
       then ["type"; "name"; "content"; "ttl"; "priority"; "proxied"]
       else ["type"; "name"; "content"; "ttl"; "proxied"]) /\
    (dict_has "priority" b = true <-> ty = "MX").
Proof.
  intros H. apply add_form_returns in H.
  destruct H as (t & n & c & ttl_s & tl & ttl & pri & answer & _ & _ & Hpri & ->).
  exists (str_upper t). split; [ reflexivity | ].
  destruct (String.eqb (str_upper t) "MX") eqn:Emx.
  - destruct Hpri as (ps & p & rest & _ & _ & ->).
    apply String.eqb_eq in Emx. split; [ reflexivity | ].
    split; [ intros _; exact Emx | reflexivity ].
  - destruct Hpri as (rest & _ & ->).
    apply String.eqb_neq in Emx. split; [ reflexivity | ].
    split; [ discriminate | contradiction ].
Qed.

(** C2. Every body that [add_dns_record] posts has exactly the fields type,
    name, content, ttl and proxied, together with priority if and only if
    the normalized type is MX. *)
Theorem add_body_fields (zone_id : json) (w : world)
    (m : http_method) (url : string) (b : dict) :
  In (m, url, Some b) (requests_in (events (add_dns_record zone_id w))) ->
  m = POST /\
  exists ty,
    dict_get "type" b = Some (JStr ty) /\
    dict_keys b =
      (if String.eqb ty "MX"
       then ["type"; "name"; "content"; "ttl"; "priority"; "proxied"]
       else ["type"; "name"; "content"; "ttl"; "proxied"]) /\
    (dict_has "priority" b = true <-> ty = "MX").
Proof.
  intros H. apply add_request_inv in H. destruct H as (-> & _ & H).
  split; [ reflexivity | apply (add_form_fields w); exact H ].
Qed.


(** ** Update *)

Lemma returns_bind {A B : Type} (m : M A) (k : A -> M B)
    (w w2 : world) (b : B) :
  returns (bind m k w) b w2 ->
  exists a w1, returns (m w) a w1 /\ returns (k a w1) b w2.
Proof.
  unfold returns, bind, result, final.
  destruct (m w) as [[[a | e] w1] l1]; cbn.
  - intros H. exists a, w1. split; [ split; reflexivity | ].
    destruct (k a w1) as [[o w3] l2]; cbn in *. exact H.
  - intros [H _]. discriminate H.
Qed.

Lemma returns_ret {A : Type} (a b : A) (w w1 : world) :
  returns (ret a w) b w1 -> b = a /\ w1 = w.
Proof. unfold returns, ret, result, final; cbn. intros [[= ->] ->]. auto. Qed.

Lemma returns_lift {A : Type} (o : outcome A) (b : A) (w w1 : world) :
  returns (lift o w) b w1 -> o = Return b /\ w1 = w.
Proof. unfold returns, lift, result, final; cbn. intros [-> ->]. auto. Qed.

Lemma returns_getitem (v : json) (k : string) (b : json) (w w1 : world) :
  returns (getitem v k w) b w1 -> subscript v k = Return b /\ w1 = w.
Proof. apply returns_lift. Qed.

Lemma returns_console_print (s : string) (u : unit) (w w1 : world) :
  returns (console_print s w) u w1 -> w1 = w.
Proof. unfold returns, final; cbn. intros [_ ->]. reflexivity. Qed.

Lemma returns_console_input (p line : string) (w w1 : world) :
  returns (console_input p w) line w1 ->
  stdin w = line :: stdin w1 /\ net w1 = net w /\ sent w1 = sent w.
Proof.
  unfold returns, console_input, result, final.
  destruct (stdin w) as [ | x rest ]; cbn.
  - intros [H _]. discriminate H.
  - intros [[= ->] <-]. cbn. auto.
Qed.

Lemma returns_to_int (s : string) (z : Z) (w w1 : world) :
  returns (to_int s w) z w1 -> int_of s = Some z /\ w1 = w.
Proof.
  unfold to_int. destruct (int_of s) as [n | ].
  - intros H. apply returns_ret in H. destruct H as [-> ->]. auto.
  - intros [H _]. discriminate H.
Qed.

Lemma subscript_object (v b : json) (k : string) :
  subscript v k = Return b -> exists d, v = JObj d /\ dict_get k d = Some b.
Proof.
  destruct v; cbn; try discriminate.
  destruct (dict_get k d) eqn:E; [ | discriminate ].
  intros [= ->]. exists d. auto.
Qed.

(** [answer or record[k]], the record's value being known. *)
Lemma returns_or_field (answer k : string) (d : dict) (v b : json) (w w1 : world) :
  dict_get k d = Some v ->
  returns ((if Py.nonempty answer then ret (JStr answer)
            else getitem (JObj d) k) w) b w1 ->
  b = (if Py.nonempty answer then JStr answer else v) /\ w1 = w.
Proof.
  intros Hk. destruct (Py.nonempty answer).
  - apply returns_ret.
  - intros H. apply returns_getitem in H. cbn in H. rewrite Hk in H.
    destruct H as [[= ->] ->]. auto.
Qed.

Tactic Notation "bind_step" hyp(H) ident(a) ident(w1) ident(Ha) :=
  apply returns_bind in H; destruct H as (a & w1 & Ha & H).

Lemma update_form_returns (r : json) (w w' : world) (data : dict) :
  returns (update_form r w) data w' ->
  exists d ty nm ct tl px,
    r = JObj d /\
    dict_get "type" d = Some ty /\ dict_get "name" d = Some nm /\
    dict_get "content" d = Some ct /\ dict_get "ttl" d = Some tl /\
    dict_get "proxied" d = Some px /\
    net w' = net w /\ sent w' = sent w /\
    exists t n c ttl_s rest,
      stdin w = t :: n :: c :: ttl_s :: rest /\
      exists ttl' pri answer,
        (if Py.nonempty ttl_s
         then exists z, int_of ttl_s = Some z /\ ttl' = JNum z
         else ttl' = tl) /\
        (if eq_str (if Py.nonempty t then JStr t else ty) "MX"
         then exists ps,
                rest = ps :: answer :: stdin w' /\
                if Py.nonempty ps
                then exists z, int_of ps = Some z /\ pri = [("priority", JNum z)]
                else match dict_get "priority" d with
                     | Some p => pri = if truthy p then [("priority", p)] else []
                     | None => pri = []
                     end
         else rest = answer :: stdin w' /\ pri = []) /\
        data = ([ ("type", if Py.nonempty t then JStr t else ty);
                  ("name", if Py.nonempty n then JStr n else nm);
                  ("content", if Py.nonempty c then JStr c else ct);
                  ("ttl", ttl') ] ++ pri ++
                [ ("proxied", if Py.nonempty (Py.lower answer)
                              then JBool (String.eqb (Py.lower answer) "yes")
                              else px) ])%list.
Proof.
  unfold update_form. intros H.
  bind_step H u0 w0 H0. apply returns_console_print in H0. subst w0.
  (* type *)
  bind_step H ty w0 H0. apply returns_getitem in H0. destruct H0 as [Hty ->].
  apply subscript_object in Hty. destruct Hty as (d & -> & Hty).
  bind_step H t w1 H1. apply returns_console_input in H1.
  destruct H1 as (Hin1 & Hn1 & Hs1).
  bind_step H ty' w0 H0. apply (returns_or_field _ _ _ _ _ _ _ Hty) in H0.
  destruct H0 as [-> ->].
  (* name *)
  bind_step H nm w0 H0. apply returns_getitem in H0. destruct H0 as [Hnm ->].
  apply subscript_object in Hnm. destruct Hnm as (d' & [= <-] & Hnm).
  bind_step H n w2 H2. apply returns_console_input in H2.
  destruct H2 as (Hin2 & Hn2 & Hs2).
  bind_step H nm' w0 H0. apply (returns_or_field _ _ _ _ _ _ _ Hnm) in H0.
  destruct H0 as [-> ->].
  (* content *)
  bind_step H ct w0 H0. apply returns_getitem in H0. destruct H0 as [Hct ->].
  apply subscript_object in Hct. destruct Hct as (d' & [= <-] & Hct).
  bind_step H c w3 H3. apply returns_console_input in H3.
  destruct H3 as (Hin3 & Hn3 & Hs3).
  bind_step H ct' w0 H0. apply (returns_or_field _ _ _ _ _ _ _ Hct) in H0.
  destruct H0 as [-> ->].
  (* ttl *)
  bind_step H ttl0 w0 H0. apply returns_getitem in H0. destruct H0 as [Htl ->].
  apply subscript_object in Htl. destruct Htl as (d' & [= <-] & Htl).
  bind_step H ttl_s w4 H4. apply returns_console_input in H4.
  destruct H4 as (Hin4 & Hn4 & Hs4).
  bind_step H ttl' w0 Httl.
  assert (Httl' : (if Py.nonempty ttl_s
                   then exists z, int_of ttl_s = Some z /\ ttl' = JNum z
                   else ttl' = ttl0) /\ w0 = w4).
  { destruct (Py.nonempty ttl_s).
    - bind_step Httl z w5 Hz. apply returns_to_int in Hz. destruct Hz as [Hz ->].
      apply returns_ret in Httl. destruct Httl as [-> ->]. eauto.
    - apply returns_getitem in Httl. cbn in Httl. rewrite Htl in Httl.
      destruct Httl as [[= ->] ->]. auto. }
  clear Httl. destruct Httl' as [Httl ->].
  (* priority *)
  bind_step H data4 w5 Hpri.
  assert (Hblock :
    net w5 = net w4 /\ sent w5 = sent w4 /\
    exists pri,
      data4 = ([ ("type", if Py.nonempty t then JStr t else ty);
                 ("name", if Py.nonempty n then JStr n else nm);
                 ("content", if Py.nonempty c then JStr c else ct);
                 ("ttl", ttl') ] ++ pri)%list /\
      (pri = [] \/ exists p, pri = [("priority", p)]) /\
      if eq_str (if Py.nonempty t then JStr t else ty) "MX"
      then exists ps,
             stdin w4 = ps :: stdin w5 /\
             if Py.nonempty ps
             then exists z, int_of ps = Some z /\ pri = [("priority", JNum z)]
             else match dict_get "priority" d with
                  | Some p => pri = if truthy p then [("priority", p)] else []
                  | None => pri = []
                  end
      else stdin w5 = stdin w4 /\ pri = []).
  { destruct (eq_str (if Py.nonempty t then JStr t else ty) "MX").
    - bind_step Hpri dp w0 H0. apply returns_lift in H0. destruct H0 as [Hdp ->].
      bind_step Hpri ps w7 H7. apply returns_console_input in H7.
      destruct H7 as (Hin7 & Hn7 & Hs7).
      cbn in Hdp.
      destruct (Py.nonempty ps) eqn:Eps.
      + bind_step Hpri z w0 Hz. apply returns_to_int in Hz. destruct Hz as [Hz ->].
        apply returns_ret in Hpri. destruct Hpri as [-> ->].
        split; [ exact Hn7 | ]. split; [ exact Hs7 | ].
        exists [("priority", JNum z)]. split; [ reflexivity | ].
        split; [ eauto | ]. exists ps. rewrite Eps. eauto.
      + destruct (dict_get "priority" d) as [p | ]; injection Hdp as <-.
        * destruct (truthy p) eqn:Etp;
            apply returns_ret in Hpri; destruct Hpri as [-> ->];
            (split; [ exact Hn7 | ]); (split; [ exact Hs7 | ]).
          -- exists [("priority", p)]. split; [ reflexivity | ].
             split; [ eauto | ]. exists ps. rewrite Eps. auto.
          -- exists []. split; [ reflexivity | ].
             split; [ auto | ]. exists ps. rewrite Eps. auto.
        * cbn in Hpri. apply returns_ret in Hpri. destruct Hpri as [-> ->].
          split; [ exact Hn7 | ]. split; [ exact Hs7 | ].
          exists []. split; [ reflexivity | ].
          split; [ auto | ]. exists ps. rewrite Eps. auto.
    - apply returns_ret in Hpri. destruct Hpri as [-> ->].
      split; [ reflexivity | ]. split; [ reflexivity | ].
      exists []. split; [ reflexivity | ]. auto. }
  clear Hpri. destruct Hblock as (Hn5 & Hs5 & pri & -> & Hshape & Hpri).
  (* proxied *)
  bind_step H px w0 H0. apply returns_getitem in H0. destruct H0 as [Hpx ->].
  apply subscript_object in Hpx. destruct Hpx as (d' & [= <-] & Hpx).
  bind_step H answer w6 H6. apply returns_console_input in H6.
  destruct H6 as (Hin6 & Hn6 & Hs6).
  bind_step H px' w0 H0.
  assert (Hpx' : px' = (if Py.nonempty (Py.lower answer)
                        then JBool (String.eqb (Py.lower answer) "yes")
                        else px) /\ w0 = w6).
  { destruct (Py.nonempty (Py.lower answer)).
    - apply returns_ret in H0. exact H0.
    - apply returns_getitem in H0. cbn in H0. rewrite Hpx in H0.
      destruct H0 as [[= ->] ->]. auto. }
  clear H0. destruct Hpx' as [-> ->].
  apply returns_ret in H. destruct H as [-> <-].
  exists d, ty, nm, ct, ttl0, px.
  split; [ reflexivity | ]. do 5 (split; [ assumption | ]).
  split; [ congruence | ]. split; [ congruence | ].
  exists t, n, c, ttl_s, (stdin w4).
  split; [ rewrite Hin1, Hin2, Hin3, Hin4; reflexivity | ].
  exists ttl', pri, answer.
  split; [ exact Httl | ].
  split.
  - destruct (eq_str (if Py.nonempty t then JStr t else ty) "MX").
    + destruct Hpri as (ps & Hin5 & Hpri). exists ps.
      rewrite Hin5, Hin6. auto.
    + destruct Hpri as (Hin5 & ->). rewrite <- Hin5, Hin6. auto.
  - destruct Hshape as [-> | [p ->]]; reflexivity.
Qed.

Lemma quiet_not_found : quiet not_found.
Proof. apply quiet_console_print. Qed.

Lemma update_dns_record_requests (zone_id : json) (records : list json) (w : world) :
  requests_in (events (update_dns_record zone_id records w)) =
  if renders records then
    match stdin w with
    | record_id :: rest =>
        match find_record records record_id with
        | Return (Some r) =>
            if truthy r then
              match result (update_form r {| stdin := rest; net := net w;
                                             sent := sent w |}) with
              | Return data => [ (PUT, record_url zone_id record_id, Some data) ]
              | Raise _ => []
              end
            else []
        | _ => []
        end
    | [] => []
    end
  else [].
Proof.
  unfold update_dns_record.
  rewrite bind_quiet_requests by apply quiet_display_dns_records.
  rewrite display_dns_records_eq. unfold renders.
  destruct (rows_of records) as [rows | e]; [ | reflexivity ].
  destruct (forallb (markup_ok lib) (table_texts table_title rows));
    [ | reflexivity ].
  unfold result at 1, final at 1. cbn [fst snd].
  rewrite bind_quiet_requests by apply quiet_console_input.
  unfold console_input.
  destruct (stdin w) as [ | record_id rest ]; [ reflexivity | ].
  unfold result at 1, final at 1. cbn [fst snd].
  rewrite bind_quiet_requests by apply quiet_lift.
  unfold lift at 1 2, result at 1, final at 1. cbn [fst snd].
  destruct (find_record records record_id) as [[r | ] | e]; try reflexivity.
  destruct (truthy r); [ | reflexivity ]. cbn [negb].
  rewrite bind_quiet_requests by apply quiet_update_form.
  destruct (result (update_form r _)); [ | reflexivity ].
  apply write_requests. intros e. quiet_steps.
Qed.


Lemma find_record_in (records : list json) (record_id : string) (r : json) :
  find_record records record_id = Return (Some r) ->
  In r records /\ subscript r "id" = Return (JStr record_id).
Proof.
  induction records as [ | x rest IH ]; cbn [find_record]; [ discriminate | ].
  destruct (subscript x "id") as [id | e] eqn:E; cbn [obind]; [ | discriminate ].
  destruct (eq_str id record_id) eqn:Eid.
  - intros [= <-]. apply eq_str_true in Eid. subst id. split; [ left | ]; auto.
  - intros H. destruct (IH H). split; [ right | ]; auto.
Qed.

Lemma has_row_keys_fields (d : dict) :
  has_row_keys (JObj d) = true ->
  exists ty nm ct ttl0 px,
    dict_get "type" d = Some ty /\ dict_get "name" d = Some nm /\
    dict_get "content" d = Some ct /\ dict_get "ttl" d = Some ttl0 /\
    dict_get "proxied" d = Some px.
Proof.
  unfold has_row_keys, row_keys, dict_has. cbn [forallb].
  destruct (dict_get "id" d); [ | discriminate ].
  destruct (dict_get "type" d) as [ty | ]; [ | discriminate ].
  destruct (dict_get "name" d) as [nm | ]; [ | discriminate ].
  destruct (dict_get "content" d) as [ct | ]; [ | discriminate ].
  destruct (dict_get "ttl" d) as [ttl0 | ]; [ | discriminate ].
  destruct (dict_get "proxied" d) as [px | ]; [ | discriminate ].
  intros _. exists ty, nm, ct, ttl0, px. auto 10.
Qed.


Lemma returns_final {A : Type} (x : outcome A * world * list event) (a : A) :
  result x = Return a -> returns x a (final x).
Proof. intros H. split; [ exact H | reflexivity ]. Qed.

Lemma update_request_inv (zone_id : json) (records : list json) (w : world)
    (m : http_method) (url : string) (b : dict) :
  In (m, url, Some b) (requests_in (events (update_dns_record zone_id records w))) ->
  exists record_id rest r,
    stdin w = record_id :: rest /\
    find_record records record_id = Return (Some r) /\
    m = PUT /\ url = record_url zone_id record_id /\
    result (update_form r {| stdin := rest; net := net w; sent := sent w |}) =
      Return b.
Proof.
  rewrite update_dns_record_requests.
  destruct (renders records); [ | intros [] ].
  destruct (stdin w) as [ | record_id rest ] eqn:Hin; [ intros [] | ].
  destruct (find_record records record_id) as [[r | ] | e] eqn:Hfind;
    try (intros []).
  destruct (truthy r); [ | intros [] ].
  destruct (result (update_form r _)) as [data | e] eqn:E; [ | intros [] ].
  intros [[= <- <- <-] | []].
  exists record_id, rest, r. auto 10.
Qed.

(** C8, as amended. A body carries a priority only when its type is MX.
    A created body carries one exactly when its type is MX.  An updated body
    of type MX carries the integer read from the priority prompt when the
    prompt is answered, keeps the snapshot's priority when the prompt is
    left blank and that priority is truthy, and has none when the prompt is
    left blank and the snapshot has no priority. *)
Theorem priority_only_with_MX :
  (forall zone_id w m url b,
     In (m, url, Some b) (requests_in (events (add_dns_record zone_id w))) ->
     priority_iff_MX b) /\
  (forall zone_id records w m url b,
     In (m, url, Some b)
        (requests_in (events (update_dns_record zone_id records w))) ->
     (dict_has "priority" b = true -> dict_get "type" b = Some (JStr "MX")) /\
     (dict_get "type" b = Some (JStr "MX") ->
      exists record_id t n c ttl_s ps rest d,
        stdin w = record_id :: t :: n :: c :: ttl_s :: ps :: rest /\
        find_record records record_id = Return (Some (JObj d)) /\
        (Py.nonempty ps = true ->
         exists z, int_of ps = Some z /\ dict_get "priority" b = Some (JNum z)) /\
        (ps = EmptyString ->
         forall p, dict_get "priority" d = Some p -> truthy p = true ->
                   dict_get "priority" b = Some p) /\
        (ps = EmptyString -> dict_get "priority" d = None ->
         dict_has "priority" b = false))).
Proof.
  split.
  - intros zone_id w m url b H.
    apply add_request_inv in H. destruct H as (_ & _ & H).
    destruct (add_form_fields w b H) as (ty & Hty & _ & Hiff).
    unfold priority_iff_MX. rewrite Hty, Hiff.
    split; [ intros -> | intros [= ->] ]; reflexivity.
  - intros zone_id records w m url b H.
    apply update_request_inv in H.
    destruct H as (record_id & rest0 & r & Hin & Hfind & _ & _ & H).
    apply returns_final in H. apply update_form_returns in H.
    destruct H as (d & ty & nm & ct & ttl0 & px & -> & Hty & _ & _ & _ & _ & _ & _ &
                   t & n & c & ttl_s & rest & Hst & ttl' & pri & answer &
                   _ & Hpri & ->).
    cbn [stdin] in Hst. subst rest0.
    cbn [app dict_get String.eqb Ascii.eqb Bool.eqb].
    destruct (eq_str (if Py.nonempty t then JStr t else ty) "MX") eqn:Emx.
    + apply eq_str_true in Emx. rewrite Emx.
      destruct Hpri as (ps & Hrest & Hpri). rewrite Hrest in Hin.
      split; [ reflexivity | ]. intros _.
      exists record_id, t, n, c, ttl_s, ps. do 2 eexists.
      split; [ exact Hin | ]. split; [ exact Hfind | ].
      split; [ | split ].
      * intros Eps. rewrite Eps in Hpri. destruct Hpri as (z & Hz & ->).
        exists z. split; [ exact Hz | reflexivity ].
      * intros -> p Hp Htp. unfold Py.nonempty in Hpri. rewrite Hp, Htp in Hpri. subst pri.
        reflexivity.
      * intros -> Hp. unfold Py.nonempty in Hpri. rewrite Hp in Hpri. subst pri. reflexivity.
    + destruct Hpri as (_ & ->). split.
      * discriminate.
      * intros [= E]. rewrite E in Emx. discriminate Emx.
Qed.

(** ** A write that gets no response *)

Lemma bind_returns_eq {A B : Type} (m : M A) (k : A -> M B)
    (w w1 : world) (a : A) :
  returns (m w) a w1 ->
  bind m k w =
  (result (k a w1), final (k a w1), (events (m w) ++ events (k a w1))%list).
Proof.
  unfold returns, bind, result, final, events.
  destruct (m w) as [[o w2] l1]; cbn. intros [-> ->].
  destruct (k a w1) as [[o w3] l2]; reflexivity.
Qed.

(** A write that gets no response: the handler reads [e.response.json()]
    on a missing response. *)
Lemma write_no_response
    (m : http_method) (url : string) (data : dict) (ok label : string)
    (w : world) (msg : string) :
  net w (sent w) = NoResponse msg ->
  try_except
    (response <- requests_call m url (Some data) ;;
     raise_for_status response ;;
     console_print ok)
    (fun e =>
       text <- error_message e ;;
       console_print (label ++ py_str text ++ "[/bold red]")) w =
  (Raise AttributeError,
   {| stdin := stdin w; net := net w; sent := S (sent w) |},
   [ Request m url HEADERS (Some data) ]).
Proof.
  intros Hnet. unfold try_except, bind, requests_call. rewrite Hnet.
  reflexivity.
Qed.

(** C5, on the code. When the network gives no response to the write,
    [add_dns_record] and [update_dns_record] (the table rendered, the record
    found) raise [AttributeError] out of their handler; the creation logs
    the request as its last event and prints no report. *)
Theorem write_without_response_raises :
  (forall zone_id w data w1 msg,
     returns (add_form w) data w1 ->
     net w1 (sent w1) = NoResponse msg ->
     add_dns_record zone_id w =
       (Raise AttributeError,
        {| stdin := stdin w1; net := net w1; sent := S (sent w1) |},
        (events (add_form w) ++
         [ Request POST (API_BASE_URL ++ "/zones/" ++ py_str zone_id ++
                         "/dns_records") HEADERS (Some data) ])%list)) /\
  (forall zone_id records w record_id rest r data w1 msg,
     renders records = true ->
     stdin w = record_id :: rest ->
     find_record records record_id = Return (Some r) ->
     returns (update_form r {| stdin := rest; net := net w; sent := sent w |})
             data w1 ->
     net w1 (sent w1) = NoResponse msg ->
     result (update_dns_record zone_id records w) = Raise AttributeError /\
     requests_in (events (update_dns_record zone_id records w)) =
       [ (PUT, record_url zone_id record_id, Some data) ]).
Proof.
  split.
  - intros zone_id w data w1 msg Hform Hnet.
    unfold add_dns_record. rewrite (bind_returns_eq _ _ _ _ _ Hform).
    rewrite (write_no_response _ _ _ _ _ _ _ Hnet). reflexivity.
  - intros zone_id records w record_id rest r data w1 msg Hkeys Hin Hfind Hform Hnet.
    pose proof Hkeys as Hshown.
  destruct (renders_inv records Hkeys) as (rows & Hrows & Hm & Hkeys0).
  clear Hkeys. rename Hkeys0 into Hkeys.
    destruct (find_record_in _ _ _ Hfind) as [Hmem _].
    assert (Hr : has_row_keys r = true).
    { rewrite forallb_forall in Hkeys. apply Hkeys. exact Hmem. }
    destruct (has_row_keys_id _ Hr) as (d & id & -> & _ & Htruthy).
    split.
    + unfold update_dns_record, bind at 1.
      rewrite display_dns_records_eq, Hrows, Hm.
      unfold bind at 1, console_input. rewrite Hin.
      unfold bind at 1, lift. rewrite Hfind, Htruthy. cbn [negb].
      rewrite (bind_returns_eq _ _ _ _ _ Hform).
      unfold record_url. rewrite (write_no_response _ _ _ _ _ _ _ Hnet).
      reflexivity.
    + rewrite update_dns_record_requests, Hshown, Hin, Hfind, Htruthy.
      destruct Hform as [-> _]. reflexivity.
Qed.

(** ** Zone resolution and record listing: failures and odd bodies *)



(** X2. A decoded body from which [data["result"]] cannot be read (no such
    key, or not an object) makes the zone lookup raise that [KeyError] or
    [TypeError]: the handler does not catch it and nothing is printed. *)
Theorem get_zone_id_unreadable_result
    (domain : string) (w : world) (r : response) (v : json) (e : exn) :
  net w (sent w) = Reply r ->
  status_code r < 400 \/ 600 <= status_code r ->
  body r = inr v ->
  subscript v "result" = Raise e ->
  get_zone_id domain w =
    (Raise e, after_call w,
     [ Request GET (API_BASE_URL ++ "/zones?name=" ++ domain) HEADERS None ]) /\
  (e = KeyError (JStr "result") \/ e = TypeError).
Proof.
  intros Hnet Hst Hbody Hsub. apply status_ok in Hst.
  unfold get_zone_id, try_except, bind, requests_call, raise_for_status,
    response_json, getitem, lift, after_call.
  rewrite Hnet, Hst, Hbody. cbn. rewrite Hsub.
  destruct v; cbn in Hsub; try (injection Hsub as <-; auto).
  destruct (dict_get "result" d); [ discriminate | ].
  injection Hsub as <-. auto.
Qed.

(** X3. The listing of a response that is no error and decodes: the value
    of [result] is returned as it is, or the [KeyError] or [TypeError] of
    the subscript is raised; one [GET] was sent and nothing was printed. *)
Theorem get_dns_records_result
    (zone_id : json) (w : world) (r : response) (v : json) :
  net w (sent w) = Reply r ->
  status_code r < 400 \/ 600 <= status_code r ->
  body r = inr v ->
  get_dns_records zone_id w =
    (subscript v "result", after_call w,
     [ Request GET (records_url zone_id) HEADERS None ]).
Proof.
  intros Hnet Hst Hbody. apply status_ok in Hst.
  unfold get_dns_records, try_except, bind, requests_call, raise_for_status,
    response_json, getitem, lift, after_call, records_url.
  rewrite Hnet, Hst, Hbody. cbn.
  destruct v; cbn; try reflexivity.
  destruct (dict_get "result" d); reflexivity.
Qed.

(** X4. A listing whose body does not decode as JSON is handled like a
    transport error: the decoder's message is printed and the empty list is
    returned. *)
Theorem get_dns_records_not_json
    (zone_id : json) (w : world) (r : response) (msg : string) :
  net w (sent w) = Reply r ->
  status_code r < 400 \/ 600 <= status_code r ->
  body r = inl msg ->
  get_dns_records zone_id w =
    (Return (JArr []), after_call w,
     [ Request GET (records_url zone_id) HEADERS None;
       Printed ("[bold red]API Request Error: " ++ msg ++ "[/bold red]") ]).
Proof.
  intros Hnet Hst Hbody. apply status_ok in Hst.
  unfold get_dns_records, try_except, bind, requests_call, raise_for_status,
    response_json, after_call, records_url.
  rewrite Hnet, Hst, Hbody. reflexivity.
Qed.

(** ** Creation: the report and the malformed answers *)

Lemma bind_raises_eq {A B : Type} (m : M A) (k : A -> M B) (w : world) (e : exn) :
  result (m w) = Raise e -> bind m k w = (Raise e, final (m w), events (m w)).
Proof.
  unfold bind, result, final, events.
  destruct (m w) as [[o w1] l1]; cbn. intros ->. reflexivity.
Qed.

(** A write answered without an error status. *)
Lemma write_accepted
    (m : http_method) (url : string) (data : dict) (ok : string)
    (h : request_exception -> M unit) (w : world) (r : response) :
  net w (sent w) = Reply r ->
  status_code r < 400 \/ 600 <= status_code r ->
  try_except
    (response <- requests_call m url (Some data) ;;
     raise_for_status response ;;
     console_print ok) h w =
  (Return tt, after_call w, [ Request m url HEADERS (Some data); Printed ok ]).
Proof.
  intros Hnet Hst. apply status_ok in Hst.
  unfold try_except, bind, requests_call, raise_for_status, console_print,
    after_call.
  rewrite Hnet, Hst. reflexivity.
Qed.


(** X5. When the [POST] is answered without an error status, the creation
    prints the success line after the request and returns. *)
Theorem add_dns_record_success
    (zone_id : json) (w w1 : world) (data : dict) (r : response) :
  returns (add_form w) data w1 ->
  net w1 (sent w1) = Reply r ->
  status_code r < 400 \/ 600 <= status_code r ->
  add_dns_record zone_id w =
    (Return tt, after_call w1,
     (events (add_form w) ++
      [ Request POST (records_url zone_id) HEADERS (Some data);
        Printed (nl ++ "[bold green]Successfully added DNS record.[/bold green]") ])%list).
Proof.
  intros Hform Hnet Hst.
  unfold add_dns_record. rewrite (bind_returns_eq _ _ _ _ _ Hform).
  rewrite (write_accepted _ _ _ _ _ _ _ Hnet Hst). reflexivity.
Qed.


(** X7. A TTL answer that is not empty and that [int] refuses makes the
    creation raise [ValueError] before anything is sent. *)
Theorem add_dns_record_rejects_bad_ttl
    (zone_id : json) (w : world) (t n c ttl_s : string) (rest : list string) :
  stdin w = t :: n :: c :: ttl_s :: rest ->
  Py.nonempty ttl_s = true ->
  int_of ttl_s = None ->
  result (add_dns_record zone_id w) = Raise ValueError /\
  requests_in (events (add_dns_record zone_id w)) = [].
Proof.
  intros Hin Hne Hint.
  assert (Hform : result (add_form w) = Raise ValueError).
  { destruct w as [inp nt st]. cbn in Hin. subst inp.
    unfold add_form, bind, console_print, console_input, to_int, raise, result.
    cbn. rewrite Hne, Hint. reflexivity. }
  split.
  - unfold add_dns_record. rewrite (bind_raises_eq _ _ _ _ Hform). reflexivity.
  - rewrite add_dns_record_requests, Hform. reflexivity.
Qed.

(** X8. For a type that is MX in upper case the priority is always asked
    for, and an answer that [int] refuses, the empty answer included, makes
    the creation raise [ValueError] before anything is sent. *)
Theorem add_dns_record_requires_mx_priority
    (zone_id : json) (w : world) (t n c ttl_s p : string) (rest : list string) :
  stdin w = t :: n :: c :: ttl_s :: p :: rest ->
  str_upper t = "MX" ->
  (ttl_s = EmptyString \/ exists z, int_of ttl_s = Some z) ->
  int_of p = None ->
  result (add_dns_record zone_id w) = Raise ValueError /\
  requests_in (events (add_dns_record zone_id w)) = [] /\
  In (Prompt "Enter priority: ") (events (add_dns_record zone_id w)).
Proof.
  intros Hin Hmx Httl Hp.
  assert (Hform : result (add_form w) = Raise ValueError /\
                  In (Prompt "Enter priority: ") (events (add_form w))).
  { destruct w as [inp nt st]. cbn in Hin. subst inp.
    unfold add_form, bind, console_print, console_input, to_int, raise, ret,
      result, events.
    cbn. rewrite Hmx.
    destruct Httl as [-> | [z Hz]].
    - unfold Py.nonempty. cbn. rewrite Hp. cbn. auto 10.
    - rewrite Hz. destruct (Py.nonempty ttl_s); cbn; rewrite Hp; cbn; auto 10. }
  destruct Hform as [Hform Hprompt].
  split; [ | split ].
  - unfold add_dns_record. rewrite (bind_raises_eq _ _ _ _ Hform). reflexivity.
  - rewrite add_dns_record_requests, Hform. reflexivity.
  - unfold add_dns_record. rewrite (bind_raises_eq _ _ _ _ Hform). exact Hprompt.
Qed.

(** ** Update: the shape of the body and the answers *)

Lemma update_body_inv (zone_id : json) (records : list json) (w : world)
    (m : http_method) (url : string) (b : dict) :
  In (m, url, Some b) (requests_in (events (update_dns_record zone_id records w))) ->
  exists record_id d ty nm ct ttl0 px t n c ttl_s rest ttl' pri answer,
    stdin w = record_id :: t :: n :: c :: ttl_s :: rest /\
    find_record records record_id = Return (Some (JObj d)) /\
    m = PUT /\ url = record_url zone_id record_id /\
    dict_get "type" d = Some ty /\ dict_get "name" d = Some nm /\
    dict_get "content" d = Some ct /\ dict_get "ttl" d = Some ttl0 /\
    dict_get "proxied" d = Some px /\
    (if Py.nonempty ttl_s
     then exists z, int_of ttl_s = Some z /\ ttl' = JNum z
     else ttl' = ttl0) /\
    (pri = [] \/ exists p, pri = [("priority", p)]) /\
    (if eq_str (if Py.nonempty t then JStr t else ty) "MX"
     then nth_error rest 1 = Some answer
     else nth_error rest 0 = Some answer /\ pri = []) /\
    b = ([ ("type", if Py.nonempty t then JStr t else ty);
           ("name", if Py.nonempty n then JStr n else nm);
           ("content", if Py.nonempty c then JStr c else ct);
           ("ttl", ttl') ] ++ pri ++
         [ ("proxied", if Py.nonempty (Py.lower answer)
                       then JBool (String.eqb (Py.lower answer) "yes")
                       else px) ])%list.
Proof.
  intros H. apply update_request_inv in H.
  destruct H as (record_id & rest0 & r & Hin & Hfind & -> & -> & H).
  apply returns_final in H. apply update_form_returns in H.
  destruct H as (d & ty & nm & ct & ttl0 & px & -> & Hty & Hnm & Hct & Httl0 &
                 Hpx & _ & _ & t & n & c & ttl_s & rest & Hst & ttl' & pri &
                 answer & Httl & Hpri & ->).
  cbn [stdin] in Hst. subst rest0.
  exists record_id, d, ty, nm, ct, ttl0, px, t, n, c, ttl_s, rest, ttl', pri, answer.
  do 10 (split; [ first [ assumption | reflexivity ] | ]).
  destruct (eq_str (if Py.nonempty t then JStr t else ty) "MX").
  - destruct Hpri as (ps & Hrest & Hpri).
    split; [ | split; [ rewrite Hrest; reflexivity | reflexivity ] ].
    destruct (Py.nonempty ps).
    + destruct Hpri as (z & _ & ->). eauto.
    + destruct (dict_get "priority" d) as [p | ].
      * destruct (truthy p); subst pri; eauto.
      * auto.
  - destruct Hpri as (Hrest & ->).
    split; [ auto | ]. split; [ | reflexivity ].
    rewrite Hrest. auto.
Qed.

(** X9. Every body that [update_dns_record] sends goes by [PUT] to the
    URL of the entered record id and has the keys type, name, content, ttl
    and proxied, with or without priority before proxied: the record's id
    and its other snapshot fields are never part of the body. *)
Theorem update_body_keys (zone_id : json) (records : list json) (w : world)
    (m : http_method) (url : string) (b : dict) :
  In (m, url, Some b) (requests_in (events (update_dns_record zone_id records w))) ->
  m = PUT /\
  (exists record_id rest, stdin w = record_id :: rest /\
                          url = record_url zone_id record_id) /\
  (dict_keys b = ["type"; "name"; "content"; "ttl"; "proxied"] \/
   dict_keys b = ["type"; "name"; "content"; "ttl"; "priority"; "proxied"]).
Proof.
  intros H. apply update_body_inv in H.
  destruct H as (record_id & d & ty & nm & ct & ttl0 & px & t & n & c & ttl_s &
                 rest & ttl' & pri & answer & Hin & _ & -> & -> & _ & _ & _ & _ &
                 _ & _ & Hshape & _ & ->).
  split; [ reflexivity | ]. split; [ eauto | ].
  destruct Hshape as [-> | [p ->]]; [ left | right ]; reflexivity.
Qed.

(** X10. In an update the entered type is sent as it was typed, without
    the upper-casing of the creation; a typed type other than MX in upper
    case, such as mx, gives a body without priority. *)
Theorem update_type_sent_as_typed
    (zone_id : json) (records : list json) (w : world)
    (record_id t : string) (rest : list string)
    (m : http_method) (url : string) (b : dict) :
  stdin w = record_id :: t :: rest ->
  Py.nonempty t = true ->
  In (m, url, Some b) (requests_in (events (update_dns_record zone_id records w))) ->
  dict_get "type" b = Some (JStr t) /\
  (t <> "MX" -> dict_has "priority" b = false).
Proof.
  intros Hin Hne H. apply update_body_inv in H.
  destruct H as (record_id' & d & ty & nm & ct & ttl0 & px & t' & n & c & ttl_s &
                 rest' & ttl' & pri & answer & Hin' & _ & _ & _ & _ & _ & _ & _ &
                 _ & _ & _ & Hpri & ->).
  rewrite Hin in Hin'. injection Hin' as <- <- _.
  rewrite Hne in *. split; [ reflexivity | ].
  intros Hmx. cbn [eq_str] in Hpri.
  destruct (String.eqb t "MX") eqn:E.
  - apply String.eqb_eq in E. contradiction.
  - destruct Hpri as [_ ->]. reflexivity.
Qed.

(** X11. In the body of an update, name and content are the answers where
    one was given and the snapshot's values where the prompt was left blank;
    ttl is the parsed answer, or the snapshot's ttl for a blank answer. *)
Theorem update_keeps_or_overrides
    (zone_id : json) (records : list json) (w : world)
    (record_id t n c ttl_s : string) (rest : list string) (d : dict)
    (m : http_method) (url : string) (b : dict) :
  stdin w = record_id :: t :: n :: c :: ttl_s :: rest ->
  find_record records record_id = Return (Some (JObj d)) ->
  In (m, url, Some b) (requests_in (events (update_dns_record zone_id records w))) ->
  dict_get "type" b = (if Py.nonempty t then Some (JStr t) else dict_get "type" d) /\
  dict_get "name" b = (if Py.nonempty n then Some (JStr n) else dict_get "name" d) /\
  dict_get "content" b =
    (if Py.nonempty c then Some (JStr c) else dict_get "content" d) /\
  (if Py.nonempty ttl_s
   then exists z, int_of ttl_s = Some z /\ dict_get "ttl" b = Some (JNum z)
   else dict_get "ttl" b = dict_get "ttl" d).
Proof.
  intros Hin Hfind H. apply update_body_inv in H.
  destruct H as (record_id' & d' & ty & nm & ct & ttl0 & px & t' & n' & c' & s' &
                 rest' & ttl' & pri & answer & Hin' & Hfind' & _ & _ & Hty & Hnm &
                 Hct & Httl0 & _ & Httl & _ & _ & ->).
  rewrite Hin in Hin'. injection Hin' as <- <- <- <- <- <-.
  rewrite Hfind in Hfind'. injection Hfind' as <-.
  rewrite Hty, Hnm, Hct, Httl0.
  cbn [app dict_get String.eqb Ascii.eqb Bool.eqb].
  split; [ destruct (Py.nonempty t); reflexivity | ].
  split; [ destruct (Py.nonempty n); reflexivity | ].
  split; [ destruct (Py.nonempty c); reflexivity | ].
  destruct (Py.nonempty ttl_s).
  - destruct Httl as (z & Hz & ->). exists z. auto.
  - subst ttl'. reflexivity.
Qed.

(** X12. In the body of an update, proxied is the snapshot's value when
    the proxy prompt is left blank, and otherwise true exactly when the
    answer in lower case is yes; the proxy answer is the one after the
    priority answer when the type sent is MX. *)
Theorem update_proxied_answer
    (zone_id : json) (records : list json) (w : world)
    (record_id t n c ttl_s : string) (rest : list string) (d : dict)
    (m : http_method) (url : string) (b : dict) :
  stdin w = record_id :: t :: n :: c :: ttl_s :: rest ->
  find_record records record_id = Return (Some (JObj d)) ->
  In (m, url, Some b) (requests_in (events (update_dns_record zone_id records w))) ->
  exists ty answer,
    dict_get "type" b = Some ty /\
    nth_error rest (if eq_str ty "MX" then 1 else 0)%nat = Some answer /\
    dict_get "proxied" b =
      (if Py.nonempty answer
       then Some (JBool (String.eqb (Py.lower answer) "yes"))
       else dict_get "proxied" d).
Proof.
  intros Hin Hfind H. apply update_body_inv in H.
  destruct H as (record_id' & d' & ty & nm & ct & ttl0 & px & t' & n' & c' & s' &
                 rest' & ttl' & pri & answer & Hin' & Hfind' & _ & _ & _ & _ &
                 _ & _ & Hpx & _ & Hshape & Hpri & ->).
  rewrite Hin in Hin'. injection Hin' as <- <- <- <- <- <-.
  rewrite Hfind in Hfind'. injection Hfind' as <-.
  exists (if Py.nonempty t then JStr t else ty), answer.
  split; [ reflexivity | ].
  assert (Hlow : Py.nonempty (Py.lower answer) = Py.nonempty answer).
  { destruct answer; reflexivity. }
  rewrite Hlow, Hpx.
  destruct (eq_str (if Py.nonempty t then JStr t else ty) "MX").
  - split; [ exact Hpri | ].
    destruct Hshape as [-> | [p ->]]; destruct (Py.nonempty answer); reflexivity.
  - destruct Hpri as [Hnth ->]. split; [ exact Hnth | ].
    destruct (Py.nonempty answer); reflexivity.
Qed.

Lemma update_form_bad_ttl (d : dict) (ty nm ct ttl0 : json) (w : world)
    (t n c ttl_s : string) (rest : list string) :
  dict_get "type" d = Some ty -> dict_get "name" d = Some nm ->
  dict_get "content" d = Some ct -> dict_get "ttl" d = Some ttl0 ->
  stdin w = t :: n :: c :: ttl_s :: rest ->
  Py.nonempty ttl_s = true ->
  int_of ttl_s = None ->
  result (update_form (JObj d) w) = Raise ValueError.
Proof.
  intros Hty Hnm Hct Httl Hin Hne Hint.
  destruct w as [inp nt st]. cbn in Hin. subst inp.
  unfold update_form, bind, console_print, console_input, getitem, lift,
    subscript, to_int, ret, raise, result.
  cbn. rewrite Hty, Hnm, Hct, Httl. cbn.
  destruct (Py.nonempty t); cbn; try rewrite Hnm; cbn;
    destruct (Py.nonempty n); cbn; try rewrite Hct; cbn;
    destruct (Py.nonempty c); cbn; try rewrite Httl; cbn;
    rewrite Hne, Hint; reflexivity.
Qed.

(** The steps of an update up to the form, on a rendered snapshot that
    holds the entered id. *)
Ltac enter_update Hrows Hm Hin Hfind Htruthy :=
  unfold update_dns_record, bind at 1;
  rewrite display_dns_records_eq, Hrows, Hm;
  unfold bind at 1, console_input; rewrite Hin;
  unfold bind at 1, lift; rewrite Hfind, Htruthy; cbn [negb].

Lemma returns_update_form_object (r : json) (w w1 : world) (data : dict) :
  returns (update_form r w) data w1 ->
  exists d, r = JObj d /\ dict_has "type" d = true.
Proof.
  intros H. apply update_form_returns in H.
  destruct H as (d & ty & _ & _ & _ & _ & -> & Hty & _).
  exists d. unfold dict_has. rewrite Hty. auto.
Qed.

(** X13. In an update of a record found in a snapshot whose table is
    rendered, a TTL answer that is not empty and that [int] refuses raises
    [ValueError] before anything is sent. *)
Theorem update_dns_record_rejects_bad_ttl
    (zone_id : json) (records : list json) (w : world)
    (record_id t n c ttl_s : string) (rest : list string) :
  renders records = true ->
  stdin w = record_id :: t :: n :: c :: ttl_s :: rest ->
  id_in record_id records ->
  Py.nonempty ttl_s = true ->
  int_of ttl_s = None ->
  result (update_dns_record zone_id records w) = Raise ValueError /\
  requests_in (events (update_dns_record zone_id records w)) = [].
Proof.
  intros Hkeys Hin Hid Hne Hint.
  pose proof Hkeys as Hshown.
  destruct (renders_inv records Hkeys) as (rows & Hrows & Hm & Hkeys0).
  clear Hkeys. rename Hkeys0 into Hkeys.
  destruct (lookup_present records record_id Hkeys Hid)
    as (_ & d & Hfind & _ & Hd & _).
  destruct (has_row_keys_fields d Hd) as (ty & nm & ct & ttl0 & px &
                                          Hty & Hnm & Hct & Httl & _).
  destruct (has_row_keys_id _ Hd) as (_ & _ & _ & _ & Htruthy).
  assert (Hform : result (update_form (JObj d)
                    {| stdin := t :: n :: c :: ttl_s :: rest;
                       net := net w; sent := sent w |}) = Raise ValueError).
  { apply (update_form_bad_ttl d ty nm ct ttl0 _ t n c ttl_s rest); auto. }
  split.
  - enter_update Hrows Hm Hin Hfind Htruthy.
    rewrite (bind_raises_eq _ _ _ _ Hform). reflexivity.
  - rewrite update_dns_record_requests, Hshown, Hin, Hfind, Htruthy, Hform.
    reflexivity.
Qed.

(** X14. Once the table is rendered, an update whose [PUT] is answered
    without an error status prints the success line after the request and
    returns. *)
Theorem update_dns_record_success
    (zone_id : json) (records : list json) (w w1 : world)
    (record_id : string) (rest : list string) (r : json) (data : dict)
    (rp : response) (rows : list (list cell)) :
  rows_of records = Return rows ->
  renders records = true ->
  stdin w = record_id :: rest ->
  find_record records record_id = Return (Some r) ->
  returns (update_form r {| stdin := rest; net := net w; sent := sent w |})
          data w1 ->
  net w1 (sent w1) = Reply rp ->
  status_code rp < 400 \/ 600 <= status_code rp ->
  update_dns_record zone_id records w =
    (Return tt, after_call w1,
     ([ Table ("DNS Records for " ++ str_opt (CF_DOMAIN cfg)) columns rows;
        Prompt (nl ++ "Enter the ID of the record to update: ") ] ++
      events (update_form r {| stdin := rest; net := net w; sent := sent w |}) ++
      [ Request PUT (record_url zone_id record_id) HEADERS (Some data);
        Printed (nl ++ "[bold green]Successfully updated DNS record." ++
                 "[/bold green]") ])%list).
Proof.
  intros Hrows Hshown Hin Hfind Hform Hnet Hst.
  pose proof (display_dns_records_table _ _ Hrows Hshown) as Hm.
  assert (Htruthy : truthy r = true).
  { apply returns_update_form_object in Hform. destruct Hform as (d & -> & Hd).
    destruct d; [ discriminate Hd | reflexivity ]. }
  enter_update Hrows Hm Hin Hfind Htruthy.
  rewrite (bind_returns_eq _ _ _ _ _ Hform).
  unfold record_url. rewrite (write_accepted _ _ _ _ _ _ _ Hnet Hst).
  reflexivity.
Qed.


(** ** Deletion: the report and the requests *)


Lemma delete_dns_record_requests (zone_id : json) (records : list json) (w : world) :
  requests_in (events (delete_dns_record zone_id records w)) =
  match renders records, stdin w with
  | true, record_id :: confirm :: _ =>
      match any_id records record_id with
      | Return true =>
          if String.eqb (Py.lower confirm) "yes"
          then [ (DELETE, record_url zone_id record_id, None) ]
          else []
      | _ => []
      end
  | _, _ => []
  end.
Proof.
  destruct w as [inp nt st].
  unfold delete_dns_record, bind, console_input, lift, not_found, console_print,
    try_except, requests_call, raise_for_status, record_url, events.
  rewrite display_dns_records_eq. unfold renders.
  destruct (rows_of records) as [rows | e]; [ | reflexivity ].
  destruct (forallb (markup_ok lib) (table_texts table_title rows));
    [ | reflexivity ].
  cbn [stdin net sent fst snd].
  destruct inp as [ | record_id [ | confirm rest ] ]; cbn [stdin net sent];
    try reflexivity;
    destruct (any_id records record_id) as [[ | ] | e];
    cbn [negb stdin net sent fst snd]; try reflexivity.
  destruct (String.eqb (Py.lower confirm) "yes");
    cbn [stdin net sent fst snd]; [ | reflexivity ].
  destruct (nt st) as [msg | r]; [ reflexivity | ].
  destruct ((400 <=? status_code r) && (status_code r <? 600)); reflexivity.
Qed.

(** X17. Whatever the snapshot and the answers, [delete_dns_record] sends
    at most one request, and that request is a [DELETE] without body to the
    URL of the entered record id. *)
Theorem delete_dns_record_only_deletes
    (zone_id : json) (records : list json) (w : world) :
  requests_in (events (delete_dns_record zone_id records w)) = [] \/
  exists record_id rest,
    stdin w = record_id :: rest /\
    requests_in (events (delete_dns_record zone_id records w)) =
      [ (DELETE, record_url zone_id record_id, None) ].
Proof.
  rewrite delete_dns_record_requests.
  destruct (renders records); [ | auto ].
  destruct (stdin w) as [ | record_id [ | confirm rest ] ]; auto.
  destruct (any_id records record_id) as [[ | ] | e]; auto.
  destruct (String.eqb (Py.lower confirm) "yes"); auto.
  right. exists record_id, (confirm :: rest). auto.
Qed.

(** ** Looking a record up: update and delete agree *)

(** X18. The membership test of the deletion and the search of the update
    accept the same ids and fail on the same snapshots: [any] is true
    exactly when [next] finds a record. *)
Theorem any_id_find_record (records : list json) (record_id : string) :
  any_id records record_id =
  (let? found := find_record records record_id in Return (is_some found)).
Proof.
  induction records as [ | r rest IH ]; cbn [any_id find_record obind];
    [ reflexivity | ].
  destruct (subscript r "id") as [id | e]; cbn [obind]; [ | reflexivity ].
  destruct (eq_str id record_id); [ reflexivity | exact IH ].
Qed.

(** X19. When several records of the snapshot have the entered id, the
    update works on the first of them in the order of the listing. *)
Theorem find_record_first_match
    (before after : list json) (r : json) (record_id : string) :
  Forall (fun x => exists id, subscript x "id" = Return id /\
                              eq_str id record_id = false) before ->
  subscript r "id" = Return (JStr record_id) ->
  find_record (before ++ r :: after) record_id = Return (Some r).
Proof.
  intros Hbefore Hr.
  induction Hbefore as [ | x before (id & Hid & Hne) _ IH ]; cbn [app find_record].
  - rewrite Hr. cbn [obind eq_str]. rewrite String.eqb_refl. reflexivity.
  - rewrite Hid. cbn [obind]. rewrite Hne. exact IH.
Qed.

(** ** Rendering: the shape of the table *)

Lemma row_of_length (record : json) (row : list cell) :
  row_of record = Return row -> length row = length columns.
Proof.
  unfold row_of.
  destruct (subscript record "id"); cbn [obind]; [ | discriminate ].
  destruct (subscript record "type"); cbn [obind]; [ | discriminate ].
  destruct (subscript record "name"); cbn [obind]; [ | discriminate ].
  destruct (subscript record "content"); cbn [obind]; [ | discriminate ].
  destruct (subscript record "ttl"); cbn [obind]; [ | discriminate ].
  destruct (py_get record "priority" (JStr "N/A")); cbn [obind]; [ | discriminate ].
  destruct (subscript record "proxied"); cbn [obind]; [ | discriminate ].
  intros [= <-]. reflexivity.
Qed.

(** X20. A table that is printed has one row for each record, in the order
    of the records, and every row has one cell for each of the seven
    columns. *)
Theorem rows_of_shape (records : list json) (rows : list (list cell)) :
  rows_of records = Return rows ->
  Forall2 (fun record row => row_of record = Return row) records rows /\
  Forall (fun row => length row = length columns) rows.
Proof.
  revert rows. induction records as [ | r rest IH ]; cbn [rows_of].
  - intros rows [= <-]. split; constructor.
  - intros rows.
    destruct (row_of r) as [row | e] eqn:Hrow; cbn [obind]; [ | discriminate ].
    unfold add_row. destruct (forallb cell_renderable row); cbn [obind];
      [ | discriminate ].
    destruct (rows_of rest) as [rows' | e]; cbn [obind]; [ | discriminate ].
    intros [= <-]. destruct (IH rows' eq_refl) as [H2 Hall].
    split; constructor; eauto using row_of_length.
Qed.

(** X21. A record that is not a JSON object (a text, a number, a list,
    null) makes the rendering raise [TypeError] at its first subscript, and
    the table is not printed even if the records before it all gave rows
    that the table took. *)
Theorem display_dns_records_non_object
    (before after : list json) (r : json) (w : world) :
  forallb row_ok before = true ->
  ~ is_object r ->
  display_dns_records (before ++ r :: after) w = (Raise TypeError, w, []).
Proof.
  intros Hbefore Hr. rewrite display_dns_records_eq.
  assert (H : row_of r = Raise TypeError).
  { destruct r; try reflexivity. exfalso. apply Hr. exists d. reflexivity. }
  rewrite (rows_of_stops before after r TypeError Hbefore H). reflexivity.
Qed.

(** ** The menu loop *)

Lemma consumes_ret {A : Type} (a : A) : consumes (ret a).
Proof. intros w. unfold final. cbn. apply le_n. Qed.

Lemma consumes_raise {A : Type} (e : exn) : consumes (@raise A e).
Proof. intros w. unfold final. cbn. apply le_n. Qed.

Lemma consumes_sys_exit {A : Type} (code : Z) : consumes (@sys_exit A code).
Proof. intros w. unfold final. cbn. apply le_n. Qed.

Lemma consumes_lift {A : Type} (o : outcome A) : consumes (lift o).
Proof. intros w. unfold final. cbn. apply le_n. Qed.

Lemma consumes_getitem (v : json) (k : string) : consumes (getitem v k).
Proof. apply consumes_lift. Qed.

Lemma consumes_console_print (s : string) : consumes (console_print s).
Proof. intros w. unfold final. cbn. apply le_n. Qed.

Lemma consumes_console_input (s : string) : consumes (console_input s).
Proof.
  intros w. unfold console_input, final.
  destruct (stdin w) as [ | line rest ] eqn:E; cbn;
    [ rewrite E; apply le_n | apply le_S, le_n ].
Qed.

Lemma consumes_to_int (s : string) : consumes (to_int s).
Proof.
  unfold to_int. destruct (int_of s); [ apply consumes_ret | apply consumes_raise ].
Qed.

Lemma consumes_requests_call (m : http_method) (url : string) (data : option dict) :
  consumes (requests_call m url data).
Proof.
  intros w. unfold requests_call, final.
  destruct (net w (sent w)); cbn; apply le_n.
Qed.

Lemma consumes_raise_for_status (r : response) : consumes (raise_for_status r).
Proof.
  unfold raise_for_status.
  destruct ((400 <=? status_code r) && (status_code r <? 600));
    [ apply consumes_raise | apply consumes_ret ].
Qed.

Lemma consumes_response_json (r : response) : consumes (response_json r).
Proof.
  unfold response_json.
  destruct (body r); [ apply consumes_raise | apply consumes_ret ].
Qed.

Lemma consumes_exc_response_json (e : request_exception) :
  consumes (exc_response_json e).
Proof.
  unfold exc_response_json.
  destruct (exc_response e); [ apply consumes_response_json | apply consumes_raise ].
Qed.

Lemma consumes_bind {A B : Type} (m : M A) (k : A -> M B) :
  consumes m -> (forall a, consumes (k a)) -> consumes (bind m k).
Proof.
  intros Hm Hk w. unfold bind, final. specialize (Hm w). unfold final in Hm.
  destruct (m w) as [[[a | e] w1] l1]; cbn in *; [ | exact Hm ].
  specialize (Hk a w1). unfold final in Hk.
  destruct (k a w1) as [[o w2] l2]; cbn in *.
  eapply Nat.le_trans; eassumption.
Qed.

Lemma consumes_try_except {A : Type} (m : M A) (h : request_exception -> M A) :
  consumes m -> (forall e, consumes (h e)) -> consumes (try_except m h).
Proof.
  intros Hm Hh w. unfold try_except, final. specialize (Hm w). unfold final in Hm.
  destruct (m w) as [[[a | e] w1] l1]; cbn in *; [ exact Hm | ].
  destruct e; try exact Hm.
  specialize (Hh e w1). unfold final in Hh.
  destruct (h e w1) as [[o w2] l2]; cbn in *.
  eapply Nat.le_trans; eassumption.
Qed.

Lemma consumes_if {A : Type} (b : bool) (m1 m2 : M A) :
  consumes m1 -> consumes m2 -> consumes (if b then m1 else m2).
Proof. destruct b; auto. Qed.

Lemma consumes_display_dns_records (records : list json) :
  consumes (display_dns_records records).
Proof.
  intros w. rewrite display_dns_records_eq.
  destruct (rows_of records) as [rows | e]; [ | apply le_n ].
  destruct (forallb (markup_ok lib) (table_texts table_title rows)); apply le_n.
Qed.

Create HintDb consumes.
#[local] Hint Resolve consumes_ret consumes_raise consumes_sys_exit consumes_lift
  consumes_getitem consumes_console_print consumes_console_input
  consumes_to_int consumes_requests_call consumes_raise_for_status
  consumes_response_json consumes_exc_response_json
  consumes_display_dns_records : consumes.

Ltac consumes_steps :=
  repeat first [ solve [ auto with consumes ]
               | apply consumes_bind; [ | intros ? ]
               | apply consumes_try_except; [ | intros ? ]
               | apply consumes_if ].

Lemma consumes_get_dns_records (zone_id : json) : consumes (get_dns_records zone_id).
Proof. unfold get_dns_records. consumes_steps. Qed.

Lemma consumes_add_dns_record (zone_id : json) : consumes (add_dns_record zone_id).
Proof. unfold add_dns_record, add_form, error_message. consumes_steps. Qed.

Lemma consumes_update_dns_record (zone_id : json) (records : list json) :
  consumes (update_dns_record zone_id records).
Proof.
  unfold update_dns_record, not_found. consumes_steps.
  match goal with |- consumes (match ?o with _ => _ end) => destruct o end;
    [ | auto with consumes ].
  unfold update_form, error_message. consumes_steps.
Qed.

Lemma consumes_delete_dns_record (zone_id : json) (records : list json) :
  consumes (delete_dns_record zone_id records).
Proof. unfold delete_dns_record, not_found. consumes_steps. Qed.

Lemma consumes_when_records (records : json) (action : list json -> M unit) :
  (forall items, consumes (action items)) ->
  consumes (when_records records action).
Proof. intros H. unfold when_records. consumes_steps. Qed.

Lemma consumes_dispatch (zone_id : json) (choice : string) :
  consumes (dispatch zone_id choice).
Proof.
  unfold dispatch.
  repeat first
    [ solve [ auto using consumes_get_dns_records, consumes_add_dns_record,
                consumes_when_records, consumes_update_dns_record,
                consumes_delete_dns_record with consumes ]
    | apply consumes_bind; [ | intros ? ]
    | apply consumes_if ].
Qed.

(** A round on an input that has a line: the menu, the prompt, and the
    action of the choice on the rest of the input. *)
Lemma menu_round_eq (zone_id : json) (w : world) (choice : string)
    (rest : list string) :
  stdin w = choice :: rest ->
  let w1 := {| stdin := rest; net := net w; sent := sent w |} in
  menu_round zone_id w =
    (result (dispatch zone_id choice w1), final (dispatch zone_id choice w1),
     (menu_text ++ Prompt "Enter your choice: " ::
      events (dispatch zone_id choice w1))%list).
Proof.
  intros Hin w1. unfold menu_round, bind, console_print, console_input.
  rewrite Hin. fold w1. unfold result, final, events, menu_text.
  destruct (dispatch zone_id choice w1) as [[o w2] l2]. reflexivity.
Qed.

Lemma menu_round_eof (zone_id : json) (w : world) :
  stdin w = [] ->
  menu_round zone_id w =
    (Raise EOFError, w, (menu_text ++ [Prompt "Enter your choice: "])%list).
Proof.
  intros Hin. unfold menu_round, bind, console_print, console_input.
  rewrite Hin. reflexivity.
Qed.

Lemma menu_round_shrinks (zone_id : json) (w : world) (b : bool) :
  result (menu_round zone_id w) = Return b ->
  (length (stdin (final (menu_round zone_id w))) < length (stdin w))%nat.
Proof.
  destruct (stdin w) as [ | choice rest ] eqn:Hin.
  - rewrite (menu_round_eof zone_id w Hin). discriminate.
  - rewrite (menu_round_eq zone_id w choice rest Hin). intros _.
    unfold final at 1. cbn [fst snd].
    pose proof (consumes_dispatch zone_id choice
                  {| stdin := rest; net := net w; sent := sent w |}) as H.
    cbn [stdin] in H. cbn [length]. apply le_n_S. exact H.
Qed.

Lemma result_then_true {A : Type} (m : M A) (w : world) (b : bool) :
  result ((m ;; ret true) w) = Return b -> b = true.
Proof.
  unfold bind, ret, result. destruct (m w) as [[[a | e] w1] l1]; cbn.
  - intros [= <-]. reflexivity.
  - discriminate.
Qed.

Lemma dispatch_break (zone_id : json) (choice : string) (w : world) :
  result (dispatch zone_id choice w) = Return false -> choice = "5".
Proof.
  unfold dispatch.
  destruct (String.eqb choice "1").
  { unfold bind at 1. destruct (get_dns_records zone_id w) as [[[a | e] w1] l1];
      [ | discriminate ].
    intros H. assert (Hb : false = true); [ | discriminate Hb ].
    apply (result_then_true (when_records a display_dns_records) w1).
    unfold result in *. destruct ((_ ;; ret true) w1) as [[o w2] l2].
    exact H. }
  destruct (String.eqb choice "2").
  { intros H. apply result_then_true in H. discriminate H. }
  destruct (String.eqb choice "3").
  { unfold bind at 1. destruct (get_dns_records zone_id w) as [[[a | e] w1] l1];
      [ | discriminate ].
    intros H. assert (Hb : false = true); [ | discriminate Hb ].
    apply (result_then_true (when_records a (update_dns_record zone_id)) w1).
    unfold result in *. destruct ((_ ;; ret true) w1) as [[o w2] l2].
    exact H. }
  destruct (String.eqb choice "4").
  { unfold bind at 1. destruct (get_dns_records zone_id w) as [[[a | e] w1] l1];
      [ | discriminate ].
    intros H. assert (Hb : false = true); [ | discriminate Hb ].
    apply (result_then_true (when_records a (delete_dns_record zone_id)) w1).
    unfold result in *. destruct ((_ ;; ret true) w1) as [[o w2] l2].
    exact H. }
  destruct (String.eqb choice "5") eqn:E.
  { intros _. apply String.eqb_eq. exact E. }
  intros H. apply result_then_true in H. discriminate H.
Qed.

Lemma menu_loop_step (fuel : nat) (zone_id : json) (w : world) :
  menu_loop (S fuel) zone_id w =
  match menu_round zone_id w with
  | (Return true, w1, l1) =>
      (result (menu_loop fuel zone_id w1), final (menu_loop fuel zone_id w1),
       (l1 ++ events (menu_loop fuel zone_id w1))%list)
  | (Return false, w1, l1) => (Return (Some tt), w1, (l1 ++ [])%list)
  | (Raise e, w1, l1) => (Raise e, w1, l1)
  end.
Proof.
  cbn [menu_loop]. unfold bind, ret, result, final, events.
  destruct (menu_round zone_id w) as [[[[ | ] | e] w1] l1]; try reflexivity.
  destruct (menu_loop fuel zone_id w1) as [[o w2] l2]. reflexivity.
Qed.

Lemma menu_loop_never_out (zone_id : json) (fuel : nat) (w : world) :
  (length (stdin w) < fuel)%nat ->
  result (menu_loop fuel zone_id w) <> Return None.
Proof.
  revert w. induction fuel as [ | fuel IH ]; intros w Hlt.
  - inversion Hlt.
  - rewrite menu_loop_step.
    pose proof (menu_round_shrinks zone_id w) as Hshrink.
    destruct (menu_round zone_id w) as [[[[ | ] | e] w1] l1];
      unfold result at 1; cbn [fst snd]; try discriminate.
    apply IH. specialize (Hshrink true eq_refl). unfold final in Hshrink.
    cbn [fst snd] in Hshrink. lia.
Qed.

Lemma menu_loop_same (zone_id : json) (f1 f2 : nat) (w : world) :
  (length (stdin w) < f1)%nat -> (length (stdin w) < f2)%nat ->
  menu_loop f1 zone_id w = menu_loop f2 zone_id w.
Proof.
  revert f2 w. induction f1 as [ | f1 IH ]; intros f2 w H1 H2.
  - inversion H1.
  - destruct f2 as [ | f2 ]; [ inversion H2 | ].
    rewrite !menu_loop_step.
    pose proof (menu_round_shrinks zone_id w) as Hshrink.
    destruct (menu_round zone_id w) as [[[[ | ] | e] w1] l1]; try reflexivity.
    specialize (Hshrink true eq_refl). unfold final in Hshrink.
    cbn [fst snd] in Hshrink.
    rewrite (IH f2 w1); [ reflexivity | lia | lia ].
Qed.

(** X22. The loop never stops for lack of rounds: with more rounds than
    there are lines to read, it runs as [main] runs it and ends by the exit
    choice or by an exception. *)
Theorem menu_loop_enough_rounds (fuel : nat) (zone_id : json) (w : world) :
  (length (stdin w) < fuel)%nat ->
  menu_loop fuel zone_id w = menu_loop (S (length (stdin w))) zone_id w /\
  result (menu_loop fuel zone_id w) <> Return None.
Proof.
  intros Hlt. split.
  - apply menu_loop_same; [ exact Hlt | apply le_n ].
  - apply menu_loop_never_out. exact Hlt.
Qed.

Lemma menu_loop_exit_last (fuel : nat) (zone_id : json) (w : world) :
  result (menu_loop fuel zone_id w) = Return (Some tt) ->
  exists before,
    events (menu_loop fuel zone_id w) = (before ++ [Printed "Exiting."])%list.
Proof.
  revert w. induction fuel as [ | fuel IH ]; intros w.
  - discriminate.
  - rewrite menu_loop_step.
    destruct (stdin w) as [ | choice rest ] eqn:Hin.
    + rewrite (menu_round_eof zone_id w Hin). discriminate.
    + rewrite (menu_round_eq zone_id w choice rest Hin). cbv zeta.
      pose proof (dispatch_break zone_id choice
                    {| stdin := rest; net := net w; sent := sent w |}) as Hbreak.
      destruct (result (dispatch zone_id choice _)) as [[ | ] | e] eqn:Hres.
      * unfold result at 1, events at 1. cbn [fst snd]. intros H.
        destruct (IH _ H) as (before & ->).
        eexists. rewrite app_assoc. reflexivity.
      * intros _. specialize (Hbreak eq_refl). subst choice.
        unfold events. cbn [fst snd].
        exists (menu_text ++ [Prompt "Enter your choice: "])%list.
        unfold dispatch, bind, console_print, ret, events.
        cbn [String.eqb Ascii.eqb Bool.eqb fst snd app].
        rewrite app_nil_r. rewrite <- app_assoc. reflexivity.
      * discriminate.
Qed.

Lemma menu_loop_enough_rounds_aux (zone_id : json) (w : world) :
  result (menu_loop (S (length (stdin w))) zone_id w) <> Return None /\
  (result (menu_loop (S (length (stdin w))) zone_id w) = Return (Some tt) ->
   exists before,
     events (menu_loop (S (length (stdin w))) zone_id w) =
     (before ++ [Printed "Exiting."])%list).
Proof.
  split; [ apply menu_loop_never_out, le_n | apply menu_loop_exit_last ].
Qed.

Lemma get_dns_records_requests (zone_id : json) (w : world) :
  requests_in (events (get_dns_records zone_id w)) =
  [ (GET, records_url zone_id, None) ].
Proof.
  unfold get_dns_records, try_except, bind, requests_call, raise_for_status,
    response_json, getitem, lift, console_print, ret, raise, events, records_url.
  destruct (net w (sent w)) as [msg | r]; [ reflexivity | ].
  destruct ((400 <=? status_code r) && (status_code r <? 600)); [ reflexivity | ].
  cbn. destruct (body r) as [msg | v]; [ reflexivity | ].
  cbn. destruct (subscript v "result") as [x | e]; [ reflexivity | ].
  destruct e; reflexivity.
Qed.

(** X23. When one of the three settings is missing or empty, [main] prints
    the credentials error and exits with code 1: nothing is read and no
    request is sent. *)
Theorem main_missing_credentials (w : world) :
  configured cfg = false ->
  main w = (Raise (SystemExit 1), w, [Printed missing_credentials]).
Proof.
  unfold configured, main. cbn [forallb].
  destruct (CF_EMAIL cfg) as [email | ]; [ | reflexivity ].
  destruct (CF_API_KEY cfg) as [key | ]; [ | reflexivity ].
  destruct (CF_DOMAIN cfg) as [domain | ]; [ | reflexivity ].
  rewrite andb_true_r, andb_assoc. intros ->. reflexivity.
Qed.


(** X25. A choice other than 1 to 5 prints the invalid-choice line and the
    loop goes on: one line was read and nothing was sent. *)
Theorem menu_round_invalid_choice
    (zone_id : json) (w : world) (choice : string) (rest : list string) :
  stdin w = choice :: rest ->
  ~ In choice ["1"; "2"; "3"; "4"; "5"] ->
  menu_round zone_id w =
    (Return true, {| stdin := rest; net := net w; sent := sent w |},
     (menu_text ++
      [ Prompt "Enter your choice: ";
        Printed "[bold red]Invalid choice. Please try again.[/bold red]" ])%list).
Proof.
  intros Hin Hnot. rewrite (menu_round_eq zone_id w choice rest Hin). cbv zeta.
  assert (Hneq : forall s, In s ["1"; "2"; "3"; "4"; "5"] ->
                           String.eqb choice s = false).
  { intros s Hs. apply String.eqb_neq. intros ->. contradiction. }
  unfold dispatch.
  rewrite !Hneq by (cbn; auto 10).
  reflexivity.
Qed.

(** X26. Listing, update and delete on a listing that came back falsy (the
    empty list of a zone without records, or of a failed listing): the
    round shows nothing more, asks for no record id, and the listing [GET]
    is its only request. *)
Theorem menu_round_nothing_to_show
    (zone_id : json) (w : world) (choice : string) (rest : list string)
    (records : json) :
  stdin w = choice :: rest ->
  In choice ["1"; "3"; "4"] ->
  let w1 := {| stdin := rest; net := net w; sent := sent w |} in
  result (get_dns_records zone_id w1) = Return records ->
  truthy records = false ->
  menu_round zone_id w =
    (Return true, final (get_dns_records zone_id w1),
     (menu_text ++ Prompt "Enter your choice: " ::
      events (get_dns_records zone_id w1))%list) /\
  requests_in (events (menu_round zone_id w)) = [ (GET, records_url zone_id, None) ].
Proof.
  intros Hin Hchoice w1 Hres Hfalsy.
  assert (Hround : menu_round zone_id w =
                   (Return true, final (get_dns_records zone_id w1),
                    (menu_text ++ Prompt "Enter your choice: " ::
                     events (get_dns_records zone_id w1))%list)).
  { rewrite (menu_round_eq zone_id w choice rest Hin). cbv zeta. fold w1.
    assert (Hd : dispatch zone_id choice w1 =
                 (Return true, final (get_dns_records zone_id w1),
                  events (get_dns_records zone_id w1))).
    { unfold result, final, events in *.
      destruct Hchoice as [<- | [<- | [<- | []]]];
        unfold dispatch; cbn [String.eqb Ascii.eqb Bool.eqb];
        unfold bind, when_records, ret;
        destruct (get_dns_records zone_id w1) as [[o w2] l2];
        cbn [fst snd] in *; subst o; rewrite Hfalsy; cbn;
        rewrite app_nil_r; reflexivity. }
    rewrite Hd. reflexivity. }
  split; [ exact Hround | ].
  rewrite Hround. unfold events at 1. cbn [snd].
  rewrite requests_in_app. cbn [app requests_in menu_text].
  apply get_dns_records_requests.
Qed.

(** X27. [main] returns normally only through the exit choice: the last
    thing it has printed is then the exit line. *)
Theorem main_returns_after_exit (w : world) (u : option unit) :
  result (main w) = Return u ->
  u = Some tt /\
  exists before, events (main w) = (before ++ [Printed "Exiting."])%list.
Proof.
  unfold main.
  assert (Hexit : forall x : outcome (option unit) * world * list event,
            x = (console_print missing_credentials ;; sys_exit 1) w ->
            result x = Return u -> False).
  { intros x ->. discriminate. }
  destruct (CF_EMAIL cfg) as [email | ]; [ | intros H; destruct (Hexit _ eq_refl H) ].
  destruct (CF_API_KEY cfg) as [key | ]; [ | intros H; destruct (Hexit _ eq_refl H) ].
  destruct (CF_DOMAIN cfg) as [domain | ];
    [ | intros H; destruct (Hexit _ eq_refl H) ].
  destruct (Py.nonempty email && Py.nonempty key && Py.nonempty domain);
    [ | intros H; destruct (Hexit _ eq_refl H) ].
  clear Hexit. unfold bind.
  destruct (get_zone_id domain w) as [[[zone_id | e] w1] l1]; [ | discriminate ].
  destruct (menu_loop_enough_rounds_aux zone_id w1) as [Hno Hlast].
  destruct (menu_loop (S (length (stdin w1))) zone_id w1) as [[o w2] l2] eqn:Hloop.
  unfold result, events in *. cbn [fst snd] in *.
  intros ->. destruct u as [[] | ]; [ | contradiction Hno; reflexivity ].
  split; [ reflexivity | ].
  destruct (Hlast eq_refl) as (before & ->).
  exists (l1 ++ before)%list. rewrite app_assoc. reflexivity.
Qed.

(** X28. With the zone resolved, the exit choice as first answer ends
    [main] normally after one round: the zone lookup is the only request
    and the lines after the choice are left unread. *)
Theorem main_exit_at_once
    (w w1 : world) (domain : string) (zone_id : json) (rest : list string) :
  configured cfg = true ->
  CF_DOMAIN cfg = Some domain ->
  returns (get_zone_id domain w) zone_id w1 ->
  stdin w1 = "5" :: rest ->
  main w =
    (Return (Some tt), {| stdin := rest; net := net w1; sent := sent w1 |},
     (events (get_zone_id domain w) ++ menu_text ++
      [ Prompt "Enter your choice: "; Printed "Exiting." ])%list).
Proof.
  unfold configured, main. cbn [forallb].
  destruct (CF_EMAIL cfg) as [email | ]; [ | discriminate ].
  destruct (CF_API_KEY cfg) as [key | ];
    [ | rewrite andb_false_r; discriminate ].
  destruct (CF_DOMAIN cfg) as [d | ];
    [ | rewrite !andb_false_r; discriminate ].
  rewrite andb_true_r, andb_assoc. intros -> [= ->] Hzone Hin.
  rewrite (bind_returns_eq _ _ _ _ _ Hzone).
  rewrite menu_loop_step, (menu_round_eq zone_id w1 "5" rest Hin). cbv zeta.
  unfold dispatch, bind, console_print, ret, result, final, events.
  cbn [String.eqb Ascii.eqb Bool.eqb fst snd app].
  rewrite app_nil_r. reflexivity.
Qed.

(** The action a choice runs on the listing. *)
Lemma dispatch_on_listing
    (zone_id : json) (choice : string) (action : list json -> M unit)
    (w w2 : world) (records : json) (items : list json) :
  (choice = "1" /\ action = display_dns_records) \/
  (choice = "3" /\ action = update_dns_record zone_id) \/
  (choice = "4" /\ action = delete_dns_record zone_id) ->
  returns (get_dns_records zone_id w) records w2 ->
  truthy records = true ->
  py_iter records = Return items ->
  dispatch zone_id choice w =
    (match result (action items w2) with
     | Return _ => Return true
     | Raise e => Raise e
     end,
     final (action items w2),
     (events (get_dns_records zone_id w) ++ events (action items w2))%list).
Proof.
  intros Hchoice Hget Htruthy Hiter.
  assert (Hwhen : forall k : M bool,
            (when_records records action ;; k) w2 =
            match action items w2 with
            | (Return _, w3, l3) =>
                (result (k w3), final (k w3), (l3 ++ events (k w3))%list)
            | (Raise e, w3, l3) => (Raise e, w3, l3)
            end).
  { intros k. unfold when_records, bind, lift, result, final, events.
    rewrite Htruthy, Hiter.
    destruct (action items w2) as [[[u | e] w3] l3]; cbn [fst snd app];
      [ | reflexivity ].
    destruct (k w3) as [[o w4] l4]. reflexivity. }
  assert (Hgoal : (records <- get_dns_records zone_id ;;
                   when_records records action ;; ret true) w =
                  (match result (action items w2) with
                   | Return _ => Return true
                   | Raise e => Raise e
                   end,
                   final (action items w2),
                   (events (get_dns_records zone_id w) ++
                    events (action items w2))%list)).
  { rewrite (bind_returns_eq _ _ _ _ _ Hget), Hwhen.
    unfold result, final, events, ret.
    destruct (action items w2) as [[[u | e] w3] l3]; cbn [fst snd];
      [ rewrite app_nil_r | ]; reflexivity. }
  unfold dispatch.
  destruct Hchoice as [[-> ->] | [[-> ->] | [-> ->]]];
    cbn [String.eqb Ascii.eqb Bool.eqb]; exact Hgoal.
Qed.

(** X29. Listing, update and delete work on the records fetched in the
    same round: after the choice, the round sends the listing [GET] and
    runs the action on the elements of the [result] list it has just
    received, and goes on to the next round unless the action raises. *)
Theorem menu_round_uses_fresh_listing
    (zone_id : json) (w w2 : world) (choice : string) (rest : list string)
    (action : list json -> M unit) (r : json) (records : list json) :
  stdin w = choice :: rest ->
  (choice = "1" /\ action = display_dns_records) \/
  (choice = "3" /\ action = update_dns_record zone_id) \/
  (choice = "4" /\ action = delete_dns_record zone_id) ->
  let w1 := {| stdin := rest; net := net w; sent := sent w |} in
  returns (get_dns_records zone_id w1) (JArr (r :: records)) w2 ->
  menu_round zone_id w =
    (match result (action (r :: records) w2) with
     | Return _ => Return true
     | Raise e => Raise e
     end,
     final (action (r :: records) w2),
     (menu_text ++ Prompt "Enter your choice: " ::
      events (get_dns_records zone_id w1) ++
      events (action (r :: records) w2))%list).
Proof.
  intros Hin Hchoice w1 Hget.
  rewrite (menu_round_eq zone_id w choice rest Hin). cbv zeta. fold w1.
  rewrite (dispatch_on_listing zone_id choice action w1 w2 (JArr (r :: records))
             (r :: records) Hchoice Hget eq_refl eq_refl).
  reflexivity.
Qed.

(** X30. A listing whose [result] is truthy but is not a list (an object,
    a text, a number, true) makes the round raise [TypeError] when the
    action starts to go through it: no table is printed, no record id is
    asked for, and the listing [GET] is the only request. *)
Theorem menu_round_result_not_a_list
    (zone_id : json) (w w2 : world) (choice : string) (rest : list string)
    (records : json) :
  stdin w = choice :: rest ->
  In choice ["1"; "3"; "4"] ->
  let w1 := {| stdin := rest; net := net w; sent := sent w |} in
  returns (get_dns_records zone_id w1) records w2 ->
  truthy records = true ->
  (forall l, records <> JArr l) ->
  menu_round zone_id w =
    (Raise TypeError, w2,
     (menu_text ++ Prompt "Enter your choice: " ::
      events (get_dns_records zone_id w1))%list).
Proof.
  intros Hin Hchoice w1 Hget Htruthy Hnot.
  rewrite (menu_round_eq zone_id w choice rest Hin). cbv zeta. fold w1.
  assert (Hfirst : forall items, py_iter records = Return items ->
                     exists s more, items = JStr s :: more).
  { destruct records; cbn [py_iter]; try discriminate.
    - destruct s as [ | c s ]; [ discriminate Htruthy | ].
      intros items [= <-]. cbn [chars]. eauto.
    - exfalso. apply (Hnot l). reflexivity.
    - destruct d as [ | [k v] d ]; [ discriminate Htruthy | ].
      intros items [= <-]. cbn [first_keys existsb]. eauto. }
  assert (Hd : dispatch zone_id choice w1 =
               (Raise TypeError, w2, events (get_dns_records zone_id w1))).
  { destruct (py_iter records) as [items | e] eqn:Hiter.
    - destruct (Hfirst items eq_refl) as (s & more & ->).
      assert (Hact : forall action,
                action = display_dns_records \/
                action = update_dns_record zone_id \/
                action = delete_dns_record zone_id ->
                action (JStr s :: more) w2 = (Raise TypeError, w2, [])).
      { intros action [-> | [-> | ->]].
        - rewrite display_dns_records_eq. reflexivity.
        - unfold update_dns_record, bind at 1.
          rewrite display_dns_records_eq. reflexivity.
        - unfold delete_dns_record, bind at 1.
          rewrite display_dns_records_eq. reflexivity. }
      destruct Hchoice as [<- | [<- | [<- | []]]].
      + rewrite (dispatch_on_listing zone_id "1" display_dns_records w1 w2
                   records _ (or_introl (conj eq_refl eq_refl)) Hget Htruthy Hiter).
        rewrite Hact by auto. unfold result, final, events. cbn [fst snd].
        rewrite app_nil_r. reflexivity.
      + rewrite (dispatch_on_listing zone_id "3" (update_dns_record zone_id) w1 w2
                   records _ (or_intror (or_introl (conj eq_refl eq_refl)))
                   Hget Htruthy Hiter).
        rewrite Hact by auto. unfold result, final, events. cbn [fst snd].
        rewrite app_nil_r. reflexivity.
      + rewrite (dispatch_on_listing zone_id "4" (delete_dns_record zone_id) w1 w2
                   records _ (or_intror (or_intror (conj eq_refl eq_refl)))
                   Hget Htruthy Hiter).
        rewrite Hact by auto. unfold result, final, events. cbn [fst snd].
        rewrite app_nil_r. reflexivity.
    - assert (He : e = TypeError).
      { destruct records; cbn [py_iter] in Hiter; try discriminate;
          injection Hiter as <-; reflexivity. }
      subst e.
      assert (Hgoal : forall action,
                (records <- get_dns_records zone_id ;;
                 when_records records action ;; ret true) w1 =
                (Raise TypeError, w2, events (get_dns_records zone_id w1))).
      { intros action. rewrite (bind_returns_eq _ _ _ _ _ Hget).
        unfold when_records, bind, lift, result, final, events.
        rewrite Htruthy, Hiter. cbn [fst snd]. rewrite app_nil_r. reflexivity. }
      unfold dispatch.
      destruct Hchoice as [<- | [<- | [<- | []]]];
        cbn [String.eqb Ascii.eqb Bool.eqb]; apply Hgoal. }
  rewrite Hd. reflexivity.
Qed.

End Program.

(** ** The theorems at sample runs *)

Lemma get_zone_id_first_or_exit_witness :
  result (get_zone_id sample_cfg "example.com" (world_of [] (Reply zone_response)))
  = Return (JStr "z1").
Proof.
  apply (proj2 (get_zone_id_first_or_exit sample_cfg "example.com"
                  (world_of [] (Reply zone_response)) zone_response
                  [("result", JArr [JObj [("id", JStr "z1")]])]
                  [JObj [("id", JStr "z1")]]
                  eq_refl (or_introl eq_refl) eq_refl eq_refl)
               [("id", JStr "z1")] [] (JStr "z1") eq_refl eq_refl).
Defined.


Lemma display_dns_records_needs_row_keys_witness :
  exists rows,
    display_dns_records sample_cfg sample_lib [JObj a_fields] (world_of [] ok_reply) =
    (Return tt, world_of [] ok_reply,
     [Table "DNS Records for example.com" columns rows]).
Proof.
  destruct (proj1 (display_dns_records_needs_row_keys sample_cfg sample_lib
                     [JObj a_fields] (world_of [] ok_reply))
                  eq_refl) as (_ & rows & H & _).
  exists rows. exact H.
Defined.

Lemma absent_id_no_write_witness :
  requests_in (events (update_dns_record sample_cfg sample_lib sample_zone [JObj a_fields]
                         (world_of ["r9"] ok_reply))) = [] /\
  requests_in (events (delete_dns_record sample_cfg sample_lib sample_zone [JObj a_fields]
                         (world_of ["r9"] ok_reply))) = [].
Proof.
  assert (Habs : ~ id_in "r9" [JObj a_fields]).
  { intros (d & [Heq | []] & Hd). injection Heq as <-. discriminate Hd. }
  destruct (absent_id_no_write sample_cfg sample_lib sample_zone [JObj a_fields]
              (world_of ["r9"] ok_reply) "r9" [] eq_refl eq_refl Habs)
    as (rows & _ & Hu & Hd).
  rewrite Hu, Hd. split; reflexivity.
Defined.

Lemma delete_iff_confirmed_witness :
  requests_in (events (delete_dns_record sample_cfg sample_lib sample_zone [JObj a_fields]
                         (world_of ["r1"; "YES"] ok_reply))) =
  [ (DELETE, record_url sample_zone "r1", None) ].
Proof.
  apply (proj1 (delete_iff_confirmed sample_cfg sample_lib sample_zone [JObj a_fields]
                  (world_of ["r1"; "YES"] ok_reply) "r1" "YES" []
                  eq_refl eq_refl
                  (ex_intro _ a_fields (conj (or_introl eq_refl) eq_refl)))).
  unfold yes_spellings. cbn. auto 10.
Defined.

Lemma add_body_fields_witness :
  POST = POST /\
  exists ty,
    dict_get "type" mx_body = Some (JStr ty) /\
    dict_keys mx_body =
      (if String.eqb ty "MX"
       then ["type"; "name"; "content"; "ttl"; "priority"; "proxied"]
       else ["type"; "name"; "content"; "ttl"; "proxied"]) /\
    (dict_has "priority" mx_body = true <-> ty = "MX").
Proof.
  apply (add_body_fields sample_cfg sample_lib sample_zone (world_of mx_answers ok_reply)
           POST (API_BASE_URL ++ "/zones/z1/dns_records") mx_body).
  left. reflexivity.
Defined.



(** Outside the data model, the priority of a record that is not MX is
    dropped: an SRV record whose snapshot holds a priority, every prompt
    left blank, is sent without it. *)
Lemma blank_update_drops_priority :
  ~ blank_update_is_noop sample_cfg sample_lib sample_zone [JObj srv_fields]
      (world_of (blanks_after "r2") ok_reply) "r2" srv_fields.
Proof.
  unfold blank_update_is_noop. vm_compute. intros H. discriminate H.
Qed.

Lemma priority_only_with_MX_witness : priority_iff_MX mx_body.
Proof.
  apply (proj1 (priority_only_with_MX sample_cfg sample_lib) sample_zone
           (world_of mx_answers ok_reply)
           POST (API_BASE_URL ++ "/zones/z1/dns_records") mx_body).
  left. reflexivity.
Defined.

(** C8, counterexample. An MX record whose snapshot has no priority, every
    prompt left blank: the body sent has type MX and no priority. *)
Lemma update_MX_without_priority :
  exists b,
    In (PUT, record_url sample_zone "r3", Some b)
       (requests_in (events (update_dns_record sample_cfg sample_lib sample_zone
                               [JObj mx_fields]
                               (world_of (blanks_after "r3") ok_reply)))) /\
    ~ priority_iff_MX b.
Proof.
  eexists. split.
  - left. reflexivity.
  - unfold priority_iff_MX. cbn. intros [_ H].
    specialize (H eq_refl). discriminate H.
Qed.

Lemma write_without_response_raises_witness :
  result (add_dns_record sample_cfg sample_lib sample_zone
            (world_of ["A"; "www"; "1.2.3.4"; blank; "no"] refused))
  = Raise AttributeError.
Proof.
  rewrite (proj1 (write_without_response_raises sample_cfg sample_lib) sample_zone
             (world_of ["A"; "www"; "1.2.3.4"; blank; "no"] refused)
             [ ("type", JStr "A"); ("name", JStr "www");
               ("content", JStr "1.2.3.4"); ("ttl", JNum 1);
               ("proxied", JBool false) ]
             (world_of [] refused) "Connection refused"
             (conj eq_refl eq_refl) eq_refl).
  reflexivity.
Defined.

(** ** The scenarios of the specification, run on the model *)

Example scenario_list_one_record :
  events (display_dns_records sample_cfg sample_lib [JObj a_fields] (world_of [] ok_reply)) =
  [ Table "DNS Records for example.com" columns
      [ [ Cell (JStr "r1"); Cell (JStr "A"); Cell (JStr "www");
          Cell (JStr "1.2.3.4"); Text "1"; Text "N/A"; Text "On" ] ] ].
Proof. reflexivity. Qed.

Example scenario_add_mx :
  requests_in (events (add_dns_record sample_cfg sample_lib sample_zone
                         (world_of mx_answers ok_reply))) =
  [ (POST, API_BASE_URL ++ "/zones/z1/dns_records", Some mx_body) ].
Proof. reflexivity. Qed.

Example scenario_update_content_only :
  requests_in (events (update_dns_record sample_cfg sample_lib sample_zone [JObj a_fields]
                         (world_of ["r1"; blank; blank; "5.6.7.8"; blank; blank]
                                   ok_reply))) =
  [ (PUT, record_url sample_zone "r1",
     Some [ ("type", JStr "A"); ("name", JStr "www");
            ("content", JStr "5.6.7.8"); ("ttl", JNum 1);
            ("proxied", JBool true) ]) ].
Proof. reflexivity. Qed.

(** ** The further theorems at sample runs *)


Lemma get_zone_id_unreadable_result_witness :
  result (get_zone_id sample_cfg "example.com" (world_of [] (Reply no_result)))
  = Raise (KeyError (JStr "result")).
Proof.
  destruct (get_zone_id_unreadable_result sample_cfg "example.com"
              (world_of [] (Reply no_result)) no_result
              (JObj [("success", JBool true)]) (KeyError (JStr "result"))
              eq_refl (or_introl eq_refl) eq_refl eq_refl) as [H _].
  rewrite H. reflexivity.
Defined.

Lemma get_dns_records_result_witness :
  result (get_dns_records sample_cfg sample_zone
            (world_of [] (listing_of [JObj a_fields])))
  = Return (JArr [JObj a_fields]).
Proof.
  rewrite (get_dns_records_result sample_cfg sample_zone
             (world_of [] (listing_of [JObj a_fields])) _
             (JObj [("result", JArr [JObj a_fields])])
             eq_refl (or_introl eq_refl) eq_refl).
  reflexivity.
Defined.

Lemma get_dns_records_not_json_witness :
  result (get_dns_records sample_cfg sample_zone (world_of [] (Reply not_json)))
  = Return (JArr []).
Proof.
  rewrite (get_dns_records_not_json sample_cfg sample_zone
             (world_of [] (Reply not_json)) not_json _
             eq_refl (or_introl eq_refl) eq_refl).
  reflexivity.
Defined.

Lemma add_dns_record_success_witness :
  result (add_dns_record sample_cfg sample_lib sample_zone (world_of a_answers ok_reply))
  = Return tt.
Proof.
  rewrite (add_dns_record_success sample_cfg sample_lib sample_zone
             (world_of a_answers ok_reply) (world_of [] ok_reply) a_body _
             (conj eq_refl eq_refl) eq_refl (or_introl eq_refl)).
  reflexivity.
Defined.


Lemma add_dns_record_rejects_bad_ttl_witness :
  result (add_dns_record sample_cfg sample_lib sample_zone
            (world_of ["A"; "www"; "1.2.3.4"; "soon"; "no"] ok_reply))
  = Raise ValueError.
Proof.
  apply (add_dns_record_rejects_bad_ttl sample_cfg sample_lib sample_zone
           (world_of ["A"; "www"; "1.2.3.4"; "soon"; "no"] ok_reply)
           "A" "www" "1.2.3.4" "soon" ["no"] eq_refl eq_refl eq_refl).
Defined.

Lemma add_dns_record_requires_mx_priority_witness :
  result (add_dns_record sample_cfg sample_lib sample_zone
            (world_of ["mx"; "mail"; "mail.example.com"; blank; blank; "no"]
                      ok_reply))
  = Raise ValueError.
Proof.
  apply (add_dns_record_requires_mx_priority sample_cfg sample_lib sample_zone
           (world_of ["mx"; "mail"; "mail.example.com"; blank; blank; "no"] ok_reply)
           "mx" "mail" "mail.example.com" blank blank ["no"]
           eq_refl eq_refl (or_introl eq_refl) eq_refl).
Defined.

Lemma update_body_keys_witness :
  dict_keys [ ("type", JStr "A"); ("name", JStr "www"); ("content", JStr "1.2.3.4");
              ("ttl", JNum 1); ("proxied", JBool true) ]
  = ["type"; "name"; "content"; "ttl"; "proxied"] \/
  dict_keys [ ("type", JStr "A"); ("name", JStr "www"); ("content", JStr "1.2.3.4");
              ("ttl", JNum 1); ("proxied", JBool true) ]
  = ["type"; "name"; "content"; "ttl"; "priority"; "proxied"].
Proof.
  apply (update_body_keys sample_cfg sample_lib sample_zone [JObj a_fields]
           (world_of (blanks_after "r1") ok_reply)
           PUT (record_url sample_zone "r1")).
  left. reflexivity.
Defined.

Lemma update_type_sent_as_typed_witness :
  dict_get "type" [ ("type", JStr "mx"); ("name", JStr "example.com");
                    ("content", JStr "mail.example.com"); ("ttl", JNum 1);
                    ("proxied", JBool false) ]
  = Some (JStr "mx").
Proof.
  apply (update_type_sent_as_typed sample_cfg sample_lib sample_zone [JObj mx_fields]
           (world_of ["r3"; "mx"; blank; blank; blank; blank] ok_reply)
           "r3" "mx" [blank; blank; blank; blank]
           PUT (record_url sample_zone "r3") _ eq_refl eq_refl).
  left. reflexivity.
Defined.

Lemma update_keeps_or_overrides_witness :
  dict_get "content" [ ("type", JStr "A"); ("name", JStr "www");
                       ("content", JStr "5.6.7.8"); ("ttl", JNum 1);
                       ("proxied", JBool true) ]
  = Some (JStr "5.6.7.8").
Proof.
  apply (update_keeps_or_overrides sample_cfg sample_lib sample_zone [JObj a_fields]
           (world_of ["r1"; blank; blank; "5.6.7.8"; blank; blank] ok_reply)
           "r1" blank blank "5.6.7.8" blank [blank] a_fields
           PUT (record_url sample_zone "r1") _ eq_refl eq_refl).
  left. reflexivity.
Defined.

Lemma update_proxied_answer_witness :
  exists ty answer,
    dict_get "type" [ ("type", JStr "A"); ("name", JStr "www");
                      ("content", JStr "1.2.3.4"); ("ttl", JNum 1);
                      ("proxied", JBool false) ] = Some ty /\
    nth_error ["NO"] (if eq_str ty "MX" then 1 else 0)%nat = Some answer /\
    dict_get "proxied" [ ("type", JStr "A"); ("name", JStr "www");
                         ("content", JStr "1.2.3.4"); ("ttl", JNum 1);
                         ("proxied", JBool false) ]
    = (if Py.nonempty answer
       then Some (JBool (String.eqb (Py.lower answer) "yes"))
       else dict_get "proxied" a_fields).
Proof.
  apply (update_proxied_answer sample_cfg sample_lib sample_zone [JObj a_fields]
           (world_of ["r1"; blank; blank; blank; blank; "NO"] ok_reply)
           "r1" blank blank blank blank ["NO"] a_fields
           PUT (record_url sample_zone "r1") _ eq_refl eq_refl).
  left. reflexivity.
Defined.

Lemma update_dns_record_rejects_bad_ttl_witness :
  result (update_dns_record sample_cfg sample_lib sample_zone [JObj a_fields]
            (world_of ["r1"; blank; blank; blank; "soon"; blank] ok_reply))
  = Raise ValueError.
Proof.
  apply (update_dns_record_rejects_bad_ttl sample_cfg sample_lib sample_zone [JObj a_fields]
           (world_of ["r1"; blank; blank; blank; "soon"; blank] ok_reply)
           "r1" blank blank blank "soon" [blank] eq_refl eq_refl
           (ex_intro _ a_fields (conj (or_introl eq_refl) eq_refl))
           eq_refl eq_refl).
Defined.

Lemma update_dns_record_success_witness :
  result (update_dns_record sample_cfg sample_lib sample_zone [JObj a_fields]
            (world_of ["r1"; blank; blank; blank; blank; "no"] ok_reply))
  = Return tt.
Proof.
  rewrite (update_dns_record_success sample_cfg sample_lib sample_zone [JObj a_fields]
             (world_of ["r1"; blank; blank; blank; blank; "no"] ok_reply)
             (world_of [] ok_reply) "r1" [blank; blank; blank; blank; "no"]
             (JObj a_fields)
             [ ("type", JStr "A"); ("name", JStr "www"); ("content", JStr "1.2.3.4");
               ("ttl", JNum 1); ("proxied", JBool false) ]
             _ [a_row] eq_refl eq_refl eq_refl eq_refl (conj eq_refl eq_refl)
             eq_refl (or_introl eq_refl)).
  reflexivity.
Defined.



Lemma find_record_first_match_witness :
  find_record ([JObj a_fields] ++ JObj mx_fields :: [JObj (("note", JNull) :: mx_fields)])
              "r3"
  = Return (Some (JObj mx_fields)).
Proof.
  apply (find_record_first_match [JObj a_fields]
           [JObj (("note", JNull) :: mx_fields)] (JObj mx_fields) "r3").
  - constructor; [ | constructor ]. exists (JStr "r1"). split; reflexivity.
  - reflexivity.
Defined.

Lemma rows_of_shape_witness :
  Forall (fun row => length row = length columns) [a_row].
Proof.
  apply (rows_of_shape [JObj a_fields] [a_row] eq_refl).
Defined.

Lemma display_dns_records_non_object_witness :
  display_dns_records sample_cfg sample_lib ([JObj a_fields] ++ JStr "r2" :: [])
    (world_of [] ok_reply)
  = (Raise TypeError, world_of [] ok_reply, []).
Proof.
  apply (display_dns_records_non_object sample_cfg sample_lib [JObj a_fields] [] (JStr "r2")
           (world_of [] ok_reply) eq_refl).
  intros [d H]. discriminate H.
Defined.

Lemma menu_loop_enough_rounds_witness :
  menu_loop sample_cfg sample_lib 5 sample_zone (world_of ["9"] ok_reply) =
  menu_loop sample_cfg sample_lib 2 sample_zone (world_of ["9"] ok_reply).
Proof.
  apply (menu_loop_enough_rounds sample_cfg sample_lib 5 sample_zone (world_of ["9"] ok_reply)).
  cbn. lia.
Defined.

Lemma main_missing_credentials_witness :
  result (main keyless_cfg sample_lib (world_of ["1"] ok_reply)) = Raise (SystemExit 1).
Proof.
  rewrite (main_missing_credentials keyless_cfg sample_lib (world_of ["1"] ok_reply) eq_refl).
  reflexivity.
Defined.


Lemma menu_round_invalid_choice_witness :
  result (menu_round sample_cfg sample_lib sample_zone (world_of ["list"; "5"] ok_reply))
  = Return true.
Proof.
  rewrite (menu_round_invalid_choice sample_cfg sample_lib sample_zone
             (world_of ["list"; "5"] ok_reply) "list" ["5"] eq_refl).
  - reflexivity.
  - cbn. intros H.
    repeat (destruct H as [H | H]; [ discriminate H | ]). exact H.
Defined.

Lemma menu_round_nothing_to_show_witness :
  requests_in (events (menu_round sample_cfg sample_lib sample_zone
                         (world_of ["3"; "r1"] (listing_of [])))) =
  [ (GET, records_url sample_zone, None) ].
Proof.
  apply (menu_round_nothing_to_show sample_cfg sample_lib sample_zone
           (world_of ["3"; "r1"] (listing_of [])) "3" ["r1"] (JArr [])
           eq_refl (or_intror (or_introl eq_refl)) eq_refl eq_refl).
Defined.

Lemma main_returns_after_exit_witness :
  exists before,
    events (main sample_cfg sample_lib (session ["7"; "5"] ok_reply)) =
    (before ++ [Printed "Exiting."])%list.
Proof.
  apply (main_returns_after_exit sample_cfg sample_lib (session ["7"; "5"] ok_reply)
           (Some tt) eq_refl).
Defined.

Lemma main_exit_at_once_witness :
  result (main sample_cfg sample_lib (session ["5"; "1"] ok_reply)) = Return (Some tt) /\
  stdin (final (main sample_cfg sample_lib (session ["5"; "1"] ok_reply))) = ["1"].
Proof.
  rewrite (main_exit_at_once sample_cfg sample_lib (session ["5"; "1"] ok_reply)
             {| stdin := ["5"; "1"]; net := zone_then ok_reply; sent := 1 |}
             "example.com" (JStr "z1") ["1"]
             eq_refl eq_refl (conj eq_refl eq_refl) eq_refl).
  split; reflexivity.
Defined.

Lemma menu_round_uses_fresh_listing_witness :
  result (menu_round sample_cfg sample_lib sample_zone
            (world_of ["1"] (listing_of [JObj a_fields])))
  = Return true.
Proof.
  rewrite (menu_round_uses_fresh_listing sample_cfg sample_lib sample_zone
             (world_of ["1"] (listing_of [JObj a_fields]))
             {| stdin := []; net := fun _ => listing_of [JObj a_fields]; sent := 1 |}
             "1" [] (display_dns_records sample_cfg sample_lib) (JObj a_fields) []
             eq_refl (or_introl (conj eq_refl eq_refl)) (conj eq_refl eq_refl)).
  reflexivity.
Defined.

Lemma menu_round_result_not_a_list_witness :
  result (menu_round sample_cfg sample_lib sample_zone (world_of ["4"; "r1"] odd_listing))
  = Raise TypeError.
Proof.
  rewrite (menu_round_result_not_a_list sample_cfg sample_lib sample_zone
             (world_of ["4"; "r1"] odd_listing)
             {| stdin := ["r1"]; net := fun _ => odd_listing; sent := 1 |}
             "4" ["r1"] (JStr "none")
             eq_refl (or_intror (or_intror (or_introl eq_refl)))
             (conj eq_refl eq_refl) eq_refl).
  - reflexivity.
  - intros l H. discriminate H.
Defined.
